(** * BLE central for the PLAYBULB CANDLE II: a model of [src/main.c]

    The application is a set of callbacks registered with the Zephyr
    Bluetooth host plus one control loop ([main]).  Every C function of
    [main.c] is embedded as a function of the same name in a small monad
    that threads the file's global variables, records the calls made to
    the host (and the console lines) in order, and can fault where the C
    code dereferences a pointer that does not point at a byte.

    What the host answers (return codes, the connection object created)
    is not decided in [main.c]; it is taken from a [stack] value, and the
    theorems quantify over it.  [main] runs in its own thread and meets
    the callbacks only at its [k_sem_take] calls; what the callbacks did
    in the meantime is an argument of each wait.

    Left out: the calls that only format text for the console
    ([bt_addr_le_to_str], [bt_conn_get_dst], [bt_hci_err_to_str]) and the
    constant arguments of the host calls ([BT_LE_SCAN_ACTIVE],
    [BT_CONN_LE_CREATE_CONN], [BT_LE_CONN_PARAM_DEFAULT]). *)

From Stdlib Require Import ZArith List String Ascii Bool Lia.
Import ListNotations.
Local Open Scope string_scope.
Local Open Scope Z_scope.
Local Open Scope list_scope.

(** ** Fixed-width integers *)

Definition wrap (bits x : Z) : Z := x mod 2 ^ bits.
Definition u8 : Z -> Z := wrap 8.
Definition u16 : Z -> Z := wrap 16.
Definition u32 : Z -> Z := wrap 32.

Definition BIT (n : Z) : Z := Z.shiftl 1 n.

(** ** Constants of [main.c] *)

Definition NAME_LEN : Z := 30.

Definition NUL : ascii := Ascii.zero.

(** A C string literal is the array of its characters followed by NUL. *)
Definition string_literal (s : string) : list ascii :=
  list_ascii_of_string s ++ [NUL].

Definition PERIPHERAL_NAME : list ascii := string_literal "PLAYBULB CANDLE II".

Definition COLOR_COUNT : Z := 4.
Definition COLOR_WHITE : Z := 0x000000FF.
Definition COLOR_RED   : Z := 0x0000FF00.
Definition COLOR_GREEN : Z := 0x00FF0000.
Definition COLOR_BLUE  : Z := 0xFF000000.

Record color_setting_t := {
  color_value : Z;
  color_name : string
}.

Definition color_array : list color_setting_t :=
  [ {| color_value := COLOR_WHITE; color_name := "White" |};
    {| color_value := COLOR_RED;   color_name := "Red" |};
    {| color_value := COLOR_GREEN; color_name := "Green" |};
    {| color_value := COLOR_BLUE;  color_name := "Blue" |} ].

(** ** Constants of the headers [main.c] includes

    These come from the Zephyr and nRF Connect SDK headers
    ([bluetooth/uuid.h], [bluetooth/gap.h], [bluetooth/gatt.h],
    [bluetooth/hci_types.h], [errno.h], [dk_buttons_and_leds.h]), which
    are not part of this repository; the values are the ones those
    headers (and the Bluetooth assigned numbers) give. *)

Record bt_uuid_16 := { val : Z }.

Definition BT_UUID_INIT_16 (v : Z) : bt_uuid_16 := {| val := v |}.

Definition BT_UUID_COLOR_SETTING : bt_uuid_16 := BT_UUID_INIT_16 0xFFFC.
Definition BT_UUID_BAS_BATTERY_LEVEL : bt_uuid_16 := BT_UUID_INIT_16 0x2A19.
Definition BT_UUID_GATT_CCC : bt_uuid_16 := BT_UUID_INIT_16 0x2902.

(** [bt_uuid_cmp] on two 16-bit UUIDs: the difference of the values,
    zero exactly when they are the same UUID. *)
Definition bt_uuid_cmp (u1 u2 : bt_uuid_16) : Z := val u1 - val u2.

Definition DK_BTN1_MSK : Z := BIT 0.
Definition DK_BTN2_MSK : Z := BIT 1.
Definition DK_BTN3_MSK : Z := BIT 2.
Definition DK_BTN4_MSK : Z := BIT 3.

Definition BUTTON_COLOR         : Z := DK_BTN1_MSK.
Definition BUTTON_BATTERY_LEVEL : Z := DK_BTN2_MSK.
Definition BUTTON_CONN_PARAMS   : Z := DK_BTN3_MSK.
Definition BUTTON_DISCONNECT    : Z := DK_BTN4_MSK.

Definition BT_DATA_NAME_SHORTENED : Z := 0x08.
Definition BT_DATA_NAME_COMPLETE  : Z := 0x09.

Definition BT_GAP_ADV_TYPE_ADV_IND  : Z := 0x00.
Definition BT_GAP_ADV_TYPE_SCAN_RSP : Z := 0x04.

Definition BT_GATT_ITER_STOP     : Z := 0.
Definition BT_GATT_ITER_CONTINUE : Z := 1.

Definition BT_GATT_DISCOVER_PRIMARY        : Z := 0.
Definition BT_GATT_DISCOVER_CHARACTERISTIC : Z := 3.
Definition BT_GATT_DISCOVER_DESCRIPTOR     : Z := 4.

Definition BT_ATT_FIRST_ATTRIBUTE_HANDLE : Z := 0x0001.
Definition BT_ATT_LAST_ATTRIBUTE_HANDLE  : Z := 0xFFFF.

Definition BT_GATT_CCC_NOTIFY : Z := 0x0001.

Definition BT_HCI_ERR_REMOTE_USER_TERM_CONN : Z := 0x13.

Definition EAGAIN   : Z := 11.
Definition EALREADY : Z := 120.

(** ** Data *)

(** A connection object of the host, known to [main.c] only through
    [struct bt_conn *]; a pointer is [None] when it is NULL. *)
Definition bt_conn := nat.

Definition bt_addr_le_t := Z.

(** One AD structure of an advertising payload, as [bt_data_parse] hands
    it to its callback; [data_len] is the number of bytes in [data]. *)
Record bt_data := {
  type : Z;
  data : list ascii
}.

Definition data_len (d : bt_data) : Z := Z.of_nat (List.length (data d)).

(** [custom_adv_data_t]: [uint8_t length; char name[NAME_LEN]]. *)
Record custom_adv_data_t := {
  length : Z;
  name : list ascii
}.

(** The discovered attribute handed to [discover_func].  Of its fields
    [main.c] reads [handle] only; the rest is consulted by the host's
    [bt_gatt_attr_value_handle]. *)
Record bt_gatt_attr := {
  handle : Z;
  user_data : Z
}.

(** The three callbacks [main.c] stores in parameter blocks. *)
Inductive callback := cb_discover_func | cb_notify_func | cb_battery_read_func.

(** [discover_params.uuid] is NULL or points at the global
    [discover_uuid]; nothing else is ever stored in it. *)
Inductive uuid_ptr := addr_discover_uuid.

Record bt_gatt_discover_params := {
  uuid : option uuid_ptr;
  func : option callback;
  start_handle : Z;
  end_handle : Z;
  dtype : Z
}.

Record bt_gatt_subscribe_params := {
  notify : option callback;
  value : Z;
  value_handle : Z;
  ccc_handle : Z
}.

Record bt_gatt_read_params := {
  read_func : option callback;
  handle_count : Z;
  single_handle : Z;
  single_offset : Z
}.

(** The five semaphores, each [K_SEM_DEFINE(_, 0, 1)]: initial count 0,
    limit 1, so the count is a bit. *)
Inductive k_sem :=
  sem_connected | sem_discovered | sem_written | sem_read_operation | sem_disconnected.

Definition k_sem_eqb (a b : k_sem) : bool :=
  match a, b with
  | sem_connected, sem_connected
  | sem_discovered, sem_discovered
  | sem_written, sem_written
  | sem_read_operation, sem_read_operation
  | sem_disconnected, sem_disconnected => true
  | _, _ => false
  end.

Inductive k_timeout_t := K_FOREVER | K_SECONDS (n : Z).

(** ** The global variables *)

Record app := {
  sem_count : k_sem -> bool;
  color_attr_handle : Z;
  battery_level_value_handle : Z;
  current_color_index : Z;
  default_conn : option bt_conn;
  discover_uuid : bt_uuid_16;
  discover_params : bt_gatt_discover_params;
  subscribe_params : bt_gatt_subscribe_params;
  read_params : bt_gatt_read_params
}.

Definition zero_discover_params : bt_gatt_discover_params :=
  {| uuid := None; func := None; start_handle := 0; end_handle := 0;
     dtype := 0 |}.

Definition zero_subscribe_params : bt_gatt_subscribe_params :=
  {| notify := None; value := 0; value_handle := 0; ccc_handle := 0 |}.

Definition zero_read_params : bt_gatt_read_params :=
  {| read_func := None; handle_count := 0; single_handle := 0;
     single_offset := 0 |}.

(** The state at program start: statics are zero, [current_color_index]
    is 0, [discover_uuid] is [BT_UUID_INIT_16(0)]. *)
Definition app_init : app :=
  {| sem_count := fun _ => false;
     color_attr_handle := 0;
     battery_level_value_handle := 0;
     current_color_index := 0;
     default_conn := None;
     discover_uuid := BT_UUID_INIT_16 0;
     discover_params := zero_discover_params;
     subscribe_params := zero_subscribe_params;
     read_params := zero_read_params |}.

Definition set_sem (sem : k_sem) (v : bool) (s : app) : app :=
  {| sem_count := fun x => if k_sem_eqb x sem then v else sem_count s x;
     color_attr_handle := color_attr_handle s;
     battery_level_value_handle := battery_level_value_handle s;
     current_color_index := current_color_index s;
     default_conn := default_conn s;
     discover_uuid := discover_uuid s;
     discover_params := discover_params s;
     subscribe_params := subscribe_params s;
     read_params := read_params s |}.

Definition set_color_attr_handle (v : Z) (s : app) : app :=
  {| sem_count := sem_count s;
     color_attr_handle := v;
     battery_level_value_handle := battery_level_value_handle s;
     current_color_index := current_color_index s;
     default_conn := default_conn s;
     discover_uuid := discover_uuid s;
     discover_params := discover_params s;
     subscribe_params := subscribe_params s;
     read_params := read_params s |}.

Definition set_battery_level_value_handle (v : Z) (s : app) : app :=
  {| sem_count := sem_count s;
     color_attr_handle := color_attr_handle s;
     battery_level_value_handle := v;
     current_color_index := current_color_index s;
     default_conn := default_conn s;
     discover_uuid := discover_uuid s;
     discover_params := discover_params s;
     subscribe_params := subscribe_params s;
     read_params := read_params s |}.

Definition set_current_color_index (v : Z) (s : app) : app :=
  {| sem_count := sem_count s;
     color_attr_handle := color_attr_handle s;
     battery_level_value_handle := battery_level_value_handle s;
     current_color_index := v;
     default_conn := default_conn s;
     discover_uuid := discover_uuid s;
     discover_params := discover_params s;
     subscribe_params := subscribe_params s;
     read_params := read_params s |}.

Definition set_default_conn (v : option bt_conn) (s : app) : app :=
  {| sem_count := sem_count s;
     color_attr_handle := color_attr_handle s;
     battery_level_value_handle := battery_level_value_handle s;
     current_color_index := current_color_index s;
     default_conn := v;
     discover_uuid := discover_uuid s;
     discover_params := discover_params s;
     subscribe_params := subscribe_params s;
     read_params := read_params s |}.

Definition set_discover_uuid (v : bt_uuid_16) (s : app) : app :=
  {| sem_count := sem_count s;
     color_attr_handle := color_attr_handle s;
     battery_level_value_handle := battery_level_value_handle s;
     current_color_index := current_color_index s;
     default_conn := default_conn s;
     discover_uuid := v;
     discover_params := discover_params s;
     subscribe_params := subscribe_params s;
     read_params := read_params s |}.

Definition set_discover_params (v : bt_gatt_discover_params) (s : app) : app :=
  {| sem_count := sem_count s;
     color_attr_handle := color_attr_handle s;
     battery_level_value_handle := battery_level_value_handle s;
     current_color_index := current_color_index s;
     default_conn := default_conn s;
     discover_uuid := discover_uuid s;
     discover_params := v;
     subscribe_params := subscribe_params s;
     read_params := read_params s |}.

Definition set_subscribe_params (v : bt_gatt_subscribe_params) (s : app) : app :=
  {| sem_count := sem_count s;
     color_attr_handle := color_attr_handle s;
     battery_level_value_handle := battery_level_value_handle s;
     current_color_index := current_color_index s;
     default_conn := default_conn s;
     discover_uuid := discover_uuid s;
     discover_params := discover_params s;
     subscribe_params := v;
     read_params := read_params s |}.

Definition set_read_params (v : bt_gatt_read_params) (s : app) : app :=
  {| sem_count := sem_count s;
     color_attr_handle := color_attr_handle s;
     battery_level_value_handle := battery_level_value_handle s;
     current_color_index := current_color_index s;
     default_conn := default_conn s;
     discover_uuid := discover_uuid s;
     discover_params := discover_params s;
     subscribe_params := subscribe_params s;
     read_params := v |}.

(** ** What the program does to the outside

    One entry per call into the host or kernel, in program order, with
    the arguments the call is made with.  [call_printk] keeps the format
    string of the source line; its arguments are not recorded. *)
Inductive event :=
| call_printk (fmt : string)
| call_dk_buttons_init
| call_bt_enable
| call_bt_le_scan_start
| call_bt_le_scan_stop
| call_bt_conn_le_create (addr : bt_addr_le_t)
| call_bt_conn_unref (conn : option bt_conn)
| call_bt_gatt_discover (conn : option bt_conn)
    (params : bt_gatt_discover_params) (target : bt_uuid_16)
| call_bt_gatt_subscribe (conn : option bt_conn)
    (params : bt_gatt_subscribe_params)
| call_bt_gatt_write_without_response (conn : option bt_conn)
    (attr_handle : Z) (word : Z) (len : Z) (sign : bool)
| call_bt_gatt_read (conn : option bt_conn) (params : bt_gatt_read_params)
| call_bt_conn_get_info (conn : option bt_conn)
| call_bt_conn_le_param_update (conn : option bt_conn)
    (interval_min interval_max latency timeout : Z)
| call_bt_conn_disconnect (conn : option bt_conn) (reason : Z)
| call_k_sem_give (sem : k_sem)
| call_k_sem_take (sem : k_sem) (timeout : k_timeout_t).

(** ** What the host answers *)
Record stack := {
  rc_dk_buttons_init : Z;
  rc_bt_enable : Z;
  rc_bt_le_scan_start : Z;
  rc_bt_le_scan_stop : Z;
  rc_bt_conn_le_create : Z;
  new_conn : bt_conn;
  rc_bt_gatt_discover : Z;
  rc_bt_gatt_subscribe : Z;
  rc_bt_gatt_write_without_response : Z;
  rc_bt_gatt_read : Z;
  rc_bt_conn_disconnect : Z;
  attr_value_handle : bt_gatt_attr -> Z
}.

(** ** The monad: globals, trace, fault *)

Definition M (A : Type) : Type := app -> option (A * app * list event).

Definition ret {A} (a : A) : M A := fun s => Some (a, s, []).

Definition bind {A B} (m : M A) (f : A -> M B) : M B :=
  fun s =>
    match m s with
    | None => None
    | Some (a, s1, o1) =>
        match f a s1 with
        | None => None
        | Some (b, s2, o2) => Some (b, s2, o1 ++ o2)
        end
    end.

Declare Scope app_scope.
Delimit Scope app_scope with app.
Notation "x <- m ;; k" := (bind m (fun x => k))
  (at level 61, m at next level, right associativity) : app_scope.
Notation "m ;; k" := (bind m (fun _ => k))
  (at level 61, right associativity) : app_scope.
Local Open Scope app_scope.

Definition get : M app := fun s => Some (s, s, []).
Definition modify (f : app -> app) : M unit := fun s => Some (tt, f s, []).
Definition emit (e : event) : M unit := fun s => Some (tt, s, [e]).
Definition fault {A} : M A := fun _ => None.

(** Reading through a pointer that may be NULL. *)
Definition deref {A} (p : option A) : M A :=
  match p with
  | Some a => ret a
  | None => fault
  end.

Definition nonzero (x : Z) : bool := negb (x =? 0).

(** ** The host and kernel calls [main.c] makes

    Each wrapper records the call and hands back the host's answer. *)

Definition printk (fmt : string) : M unit := emit (call_printk fmt).

(** [k_sem_give] on a semaphore of limit 1 leaves the count at 1. *)
Definition k_sem_give (sem : k_sem) : M unit :=
  emit (call_k_sem_give sem);;
  modify (set_sem sem true).



Definition bt_le_scan_start (st : stack) : M Z :=
  emit call_bt_le_scan_start;;
  ret (rc_bt_le_scan_start st).

Definition bt_le_scan_stop (st : stack) : M Z :=
  emit call_bt_le_scan_stop;;
  ret (rc_bt_le_scan_stop st).

(** [bt_conn_le_create(addr, ..., &default_conn)]: on success the host
    stores the new connection object through the last argument. *)
Definition bt_conn_le_create (st : stack) (addr : bt_addr_le_t) : M Z :=
  emit (call_bt_conn_le_create addr);;
  if rc_bt_conn_le_create st =? 0
  then modify (set_default_conn (Some (new_conn st)));; ret 0
  else ret (rc_bt_conn_le_create st).

Definition bt_conn_unref (conn : option bt_conn) : M unit :=
  emit (call_bt_conn_unref conn).

(** [bt_gatt_discover(conn, &discover_params)]: the call is recorded with
    the parameter block as it stands and the UUID its [uuid] field points
    at. *)
Definition bt_gatt_discover (st : stack) (conn : option bt_conn) : M Z :=
  s <- get;;
  emit (call_bt_gatt_discover conn (discover_params s) (discover_uuid s));;
  ret (rc_bt_gatt_discover st).

Definition bt_gatt_subscribe (st : stack) (conn : option bt_conn) : M Z :=
  s <- get;;
  emit (call_bt_gatt_subscribe conn (subscribe_params s));;
  ret (rc_bt_gatt_subscribe st).

Definition bt_gatt_write_without_response (st : stack) (conn : option bt_conn)
    (attr_handle word len : Z) (sign : bool) : M Z :=
  emit (call_bt_gatt_write_without_response conn attr_handle word len sign);;
  ret (rc_bt_gatt_write_without_response st).

Definition bt_gatt_read (st : stack) (conn : option bt_conn) : M Z :=
  s <- get;;
  emit (call_bt_gatt_read conn (read_params s));;
  ret (rc_bt_gatt_read st).

Definition bt_conn_get_info (conn : option bt_conn) : M unit :=
  emit (call_bt_conn_get_info conn).

Definition bt_conn_le_param_update (conn : option bt_conn)
    (interval_min interval_max latency timeout : Z) : M unit :=
  emit (call_bt_conn_le_param_update conn interval_min interval_max latency timeout).

Definition bt_conn_disconnect (st : stack) (conn : option bt_conn) (reason : Z) : M Z :=
  emit (call_bt_conn_disconnect conn reason);;
  ret (rc_bt_conn_disconnect st).

(** [bt_gatt_attr_value_handle] returns a [uint16_t]. *)
Definition bt_gatt_attr_value_handle (st : stack) (attr : bt_gatt_attr) : Z :=
  u16 (attr_value_handle st attr).

(** [bt_data_parse(ad, func, user_data)] calls [func] on the AD structures
    of the payload in order and stops when [func] returns false. *)
Fixpoint bt_data_parse {U : Type} (ad : list bt_data)
    (cb : bt_data -> U -> bool * U) (user : U) : U :=
  match ad with
  | [] => user
  | d :: rest =>
      let (more, user') := cb d user in
      if more then bt_data_parse rest cb user' else user'
  end.

(** ** libc on character arrays *)

Definition memcpy (dst src : list ascii) (n : nat) : list ascii :=
  firstn n src ++ skipn n dst.

Fixpoint store {A : Type} (arr : list A) (i : nat) (v : A) : list A :=
  match arr, i with
  | [], _ => []
  | _ :: t, O => v :: t
  | h :: t, S i' => h :: store t i' v
  end.

Fixpoint strlen (s : list ascii) : nat :=
  match s with
  | [] => O
  | c :: rest => if Ascii.eqb c NUL then O else S (strlen rest)
  end.

Definition uchar (c : ascii) : Z := Z.of_N (N_of_ascii c).

(** [strncmp]: at most [n] characters, stopping after a NUL; a character
    past the end of the modelled array reads as NUL. *)
Fixpoint strncmp (s1 s2 : list ascii) (n : nat) : Z :=
  match n with
  | O => 0
  | S n' =>
      let c1 := hd NUL s1 in
      let c2 := hd NUL s2 in
      if negb (Ascii.eqb c1 c2) then uchar c1 - uchar c2
      else if Ascii.eqb c1 NUL then 0
      else strncmp (tl s1) (tl s2) n'
  end.

(** ** The functions of [main.c] *)

Definition data_cb (d : bt_data) (adv_data_struct : custom_adv_data_t)
    : bool * custom_adv_data_t :=
  if (type d =? BT_DATA_NAME_SHORTENED) || (type d =? BT_DATA_NAME_COMPLETE) then
    let len := u8 (Z.min (data_len d) (NAME_LEN - 1)) in
    let copied := memcpy (name adv_data_struct) (data d) (Z.to_nat len) in
    (false, {| length := len; name := store copied (Z.to_nat len) NUL |})
  else (true, adv_data_struct).

(** [memset(&device_ad_data, 0, sizeof(custom_adv_data_t))]. *)
Definition zero_adv_data : custom_adv_data_t :=
  {| length := 0; name := repeat NUL (Z.to_nat NAME_LEN) |}.

Definition conn_eqb (a b : option bt_conn) : bool :=
  match a, b with
  | Some x, Some y => Nat.eqb x y
  | None, None => true
  | _, _ => false
  end.

Definition start_scan (st : stack) : M unit :=
  err <- bt_le_scan_start st;;
  if nonzero err then printk "Scanning failed to start (err %d)\n"
  else printk "Scanning successfully started\n ==> Will only be scanning devices with a NON-EMPTY device name <==\n".

Definition device_found (st : stack) (addr : bt_addr_le_t) (rssi type : Z)
    (ad : list bt_data) : M unit :=
  s <- get;;
  if negb (conn_eqb (default_conn s) None) then ret tt
  else if negb (type =? BT_GAP_ADV_TYPE_ADV_IND) && negb (type =? BT_GAP_ADV_TYPE_SCAN_RSP)
  then ret tt
  else
    let device_ad_data := bt_data_parse ad data_cb zero_adv_data in
    if length device_ad_data =? 0 then ret tt
    else
      printk "Device found [%s]: %s with name [%d]: |%s| (RSSI %d)\n";;
      if strncmp PERIPHERAL_NAME (name device_ad_data) (strlen PERIPHERAL_NAME) =? 0
      then
        rc <- bt_le_scan_stop st;;
        if nonzero rc then ret tt
        else
          err <- bt_conn_le_create st addr;;
          if nonzero err
          then printk "Create conn to %s failed (%d)\n";; start_scan st
          else ret tt
      else ret tt.

(** [notify_func(conn, params, data, length)]: the host calls it with the
    block registered by [bt_gatt_subscribe], that is [&subscribe_params].
    [data] is NULL or points into the receive buffer; the list holds the
    bytes that can be read there, and [length] says how many of them are
    the notified value.  Reading where there is no byte is a fault. *)
Definition notify_func (conn : bt_conn) (data : option (list Z)) (length : Z)
    : M Z :=
  match data with
  | None =>
      printk "[UNSUBSCRIBED]\n";;
      modify (fun s =>
        let p := subscribe_params s in
        set_subscribe_params
          {| notify := notify p; value := value p; value_handle := 0;
             ccc_handle := ccc_handle p |} s);;
      ret BT_GATT_ITER_STOP
  | Some bytes =>
      _ <- deref (hd_error bytes);;
      printk "Received notification for Battery Level (%u): %u%%\n";;
      ret BT_GATT_ITER_CONTINUE
  end.

(** [discover_func(conn, attr, params)]: [params] is the block given to
    [bt_gatt_discover], that is [&discover_params], so the [memset]
    through [params] clears the global. *)
Definition discover_func (st : stack) (conn : bt_conn)
    (attr : option bt_gatt_attr) : M Z :=
  match attr with
  | None =>
      printk "Discover complete\n";;
      modify (set_discover_params zero_discover_params);;
      ret BT_GATT_ITER_STOP
  | Some attr =>
      printk "Discovered [ATTRIBUTE] with handle %u\n";;
      s <- get;;
      _ <- deref (uuid (discover_params s));;
      if bt_uuid_cmp (discover_uuid s) BT_UUID_COLOR_SETTING =? 0 then
        printk "Discovery of Color Setting Characteristic Successful\n";;
        modify (set_color_attr_handle (bt_gatt_attr_value_handle st attr));;
        printk "Color Setting Characteristic Handle = %u\n";;
        modify (set_discover_uuid BT_UUID_BAS_BATTERY_LEVEL);;
        modify (fun s =>
          let p := discover_params s in
          set_discover_params
            {| uuid := Some addr_discover_uuid; func := func p;
               start_handle := u16 (handle attr + 1);
               end_handle := end_handle p;
               dtype := BT_GATT_DISCOVER_CHARACTERISTIC |} s);;
        err <- bt_gatt_discover st (Some conn);;
        (if nonzero err then printk "Discover failed (err %d)\n" else ret tt);;
        ret BT_GATT_ITER_STOP
      else if bt_uuid_cmp (discover_uuid s) BT_UUID_BAS_BATTERY_LEVEL =? 0 then
        printk "Discovery of Battery Level Characteristic Successful\n";;
        modify (set_battery_level_value_handle (bt_gatt_attr_value_handle st attr));;
        printk "Battery Level Characteristic Handle = %u\n";;
        modify (set_discover_uuid BT_UUID_GATT_CCC);;
        modify (fun s =>
          let p := discover_params s in
          set_discover_params
            {| uuid := Some addr_discover_uuid; func := func p;
               start_handle := u16 (handle attr + 2);
               end_handle := end_handle p;
               dtype := BT_GATT_DISCOVER_DESCRIPTOR |} s);;
        modify (fun s =>
          let p := subscribe_params s in
          set_subscribe_params
            {| notify := notify p; value := value p;
               value_handle := bt_gatt_attr_value_handle st attr;
               ccc_handle := ccc_handle p |} s);;
        err <- bt_gatt_discover st (Some conn);;
        (if nonzero err then printk "Discover failed (err %d)\n" else ret tt);;
        ret BT_GATT_ITER_STOP
      else if bt_uuid_cmp (discover_uuid s) BT_UUID_GATT_CCC =? 0 then
        printk "Discovery of Battery Level Characteristic CCCD Successful. Subscribing to notifications now.\n";;
        modify (fun s =>
          let p := subscribe_params s in
          set_subscribe_params
            {| notify := Some cb_notify_func; value := BT_GATT_CCC_NOTIFY;
               value_handle := value_handle p;
               ccc_handle := handle attr |} s);;
        err <- bt_gatt_subscribe st (Some conn);;
        (if nonzero err && negb (err =? - EALREADY)
         then printk "Subscribe failed (err %d)\n"
         else printk "[SUBSCRIBED]\n");;
        k_sem_give sem_discovered;;
        ret BT_GATT_ITER_STOP
      else ret BT_GATT_ITER_STOP
  end.

Definition connected (st : stack) (conn : bt_conn) (err : Z) : M unit :=
  if nonzero err then
    printk "Failed to connect to %s %u %s\n";;
    s <- get;;
    bt_conn_unref (default_conn s);;
    modify (set_default_conn None);;
    start_scan st
  else
    s <- get;;
    if negb (conn_eqb (Some conn) (default_conn s)) then ret tt
    else printk "Connected: %s\n".

Definition disconnected (conn : bt_conn) (reason : Z) : M unit :=
  s <- get;;
  if negb (conn_eqb (Some conn) (default_conn s)) then ret tt
  else
    printk "Disconnected: %s, reason 0x%02x %s\n";;
    bt_conn_unref (default_conn s);;
    modify (set_default_conn None);;
    k_sem_give sem_disconnected.

Definition remote_info_available_cb (conn : bt_conn) : M unit :=
  printk "Remote info from connected device available. We can now discover the GATT database\n";;
  k_sem_give sem_connected.

(** [battery_read_func(conn, err, params, data, length)]: [data] as in
    [notify_func]. *)
Definition battery_read_func (conn : bt_conn) (err : Z)
    (data : option (list Z)) (length : Z) : M Z :=
  bytes <- deref data;;
  _ <- deref (hd_error bytes);;
  printk "Battery Level = %u%%\n";;
  ret BT_GATT_ITER_STOP.

Definition read_battery_level (st : stack) : M Z :=
  modify (fun s =>
    set_read_params
      {| read_func := Some cb_battery_read_func; handle_count := 1;
         single_handle := battery_level_value_handle s;
         single_offset := 0 |} s);;
  s <- get;;
  err <- bt_gatt_read st (default_conn s);;
  (if nonzero err then printk "Read not successful!\n" else ret tt);;
  ret err.

Definition toggle_color (st : stack) : M Z :=
  s <- get;;
  entry <- deref (nth_error color_array (Z.to_nat (current_color_index s)));;
  printk "Setting color to: %s\n";;
  err <- bt_gatt_write_without_response st (default_conn s)
           (color_attr_handle s) (color_value entry) 4 false;;
  (if nonzero err then printk "Write failed (err %d)\n"
   else printk "Write without response sent successfully.\n");;
  ret err.

(** A button is acted on when its bit is set in both arguments. *)
Definition pressed (mask button_state has_changed : Z) : bool :=
  nonzero (Z.land has_changed mask) && nonzero (Z.land button_state mask).

Definition button_state_changed (st : stack) (button_state has_changed : Z)
    : M unit :=
  (if pressed BUTTON_COLOR button_state has_changed then
     printk "Changing color to next one in array\n";;
     modify (fun s =>
       set_current_color_index
         (u32 (current_color_index s + 1) mod COLOR_COUNT) s);;
     _ <- toggle_color st;;
     ret tt
   else ret tt);;
  (if pressed BUTTON_BATTERY_LEVEL button_state has_changed then
     printk "Reading the Battery Level\n";;
     _ <- read_battery_level st;;
     ret tt
   else ret tt);;
  (if pressed BUTTON_CONN_PARAMS button_state has_changed then
     printk "Current Connection Parameters\n";;
     s <- get;;
     bt_conn_get_info (default_conn s);;
     printk "Interval: %0.2f ms, Latency: %u, Timeout: %u ms\n";;
     printk "Updating Connection Parameters\n";;
     bt_conn_le_param_update (default_conn s) 6 6 0 400;;
     printk "Updated Connection Parameters\n";;
     printk "Interval: %0.2f ms, Latency: %u, Timeout: %u ms\n"
   else ret tt);;
  (if pressed BUTTON_DISCONNECT button_state has_changed then
     printk "Disconnecting from device\n";;
     s <- get;;
     _ <- bt_conn_disconnect st (default_conn s) BT_HCI_ERR_REMOTE_USER_TERM_CONN;;
     ret tt
   else ret tt).


(** ** The control loop

    [main] blocks in [k_sem_take]; while it is blocked the host runs the
    callbacks above in its own thread.  What they do to the globals
    during one wait is a function [app -> app] supplied with the wait;
    whether the wait succeeds is then read off the semaphore. *)

(** [Some rc]: the call returned [rc]; [None]: a [K_FOREVER] wait on a
    semaphore that is never given. *)
Definition k_sem_take (sem : k_sem) (timeout : k_timeout_t)
    (meanwhile : app -> app) : M (option Z) :=
  emit (call_k_sem_take sem timeout);;
  modify meanwhile;;
  s <- get;;
  if sem_count s sem then modify (set_sem sem false);; ret (Some 0)
  else
    match timeout with
    | K_FOREVER => ret None
    | K_SECONDS _ => ret (Some (- EAGAIN))
    end.

(** How one pass of the [while (1)] body ends. *)
Inductive flow :=
| Next                (* the body ran to its end: the loop goes round *)
| Return (rc : Z)     (* [main] returned [rc] *)
| Blocked.            (* [main] sleeps in a wait that is never satisfied *)

Definition wait (sem : k_sem) (timeout : k_timeout_t) (meanwhile : app -> app)
    (k : Z -> M flow) : M flow :=
  r <- k_sem_take sem timeout meanwhile;;
  match r with
  | None => ret Blocked
  | Some rc => k rc
  end.

(** The host's answers and the callbacks' doings for one pass. *)
Record cycle := {
  host : stack;
  while_scanning : app -> app;
  while_discovering : app -> app;
  while_operating : app -> app;
  while_disconnecting : app -> app
}.

(** Lines 478-489: [if (err) { ... }] at the end of the loop body. *)
Definition main_recover (c : cycle) (err : Z) : M flow :=
  if nonzero err then
    s <- get;;
    err' <- bt_conn_disconnect (host c) (default_conn s) BT_HCI_ERR_REMOTE_USER_TERM_CONN;;
    if nonzero err' then
      printk "Failed to disconnect (err %d)\n";;
      ret (Return 0)
    else
      wait sem_disconnected (K_SECONDS 30) (while_disconnecting c) (fun _ =>
        printk "Disconnected. Going back to scanning again...\n";;
        ret Next)
  else ret Next.

(** Lines 442-489: one pass of the loop body. *)
Definition main_cycle (c : cycle) : M flow :=
  start_scan (host c);;
  wait sem_connected K_FOREVER (while_scanning c) (fun _ =>
    modify (set_discover_uuid BT_UUID_COLOR_SETTING);;
    modify (set_discover_params
      {| uuid := Some addr_discover_uuid; func := Some cb_discover_func;
         start_handle := BT_ATT_FIRST_ATTRIBUTE_HANDLE;
         end_handle := BT_ATT_LAST_ATTRIBUTE_HANDLE;
         dtype := BT_GATT_DISCOVER_CHARACTERISTIC |});;
    s <- get;;
    err <- bt_gatt_discover (host c) (default_conn s);;
    if nonzero err then
      printk "Discovery failed (err %d)\n";;
      main_recover c err
    else
      printk "Discovery started\n";;
      wait sem_discovered (K_SECONDS 10) (while_discovering c) (fun err =>
        if nonzero err then
          printk "Timed out during GATT discovery\n";;
          main_recover c err
        else
          printk "Discovered the device's characteristics.\n";;
          printk "Wait here for user button presses as long as we're still connected...\n";;
          wait sem_disconnected K_FOREVER (while_operating c) (fun _ =>
            main_recover c err))).

(** [while (1) { ... }] over the passes supplied; [Next] when they are
    used up and the loop is still going. *)
Fixpoint main_loop (cycles : list cycle) : M flow :=
  match cycles with
  | [] => ret Next
  | c :: rest =>
      f <- main_cycle c;;
      match f with
      | Next => main_loop rest
      | Return rc => ret (Return rc)
      | Blocked => ret Blocked
      end
  end.


(** * The vocabulary of the properties *)

(** ** Running a callback to its end *)

(** The globals after a callback has run ([s] itself if it faults);
    callbacks composed this way are what [main] waits on. *)
Definition after {A} (m : M A) (s : app) : app :=
  match m s with
  | Some (_, s', _) => s'
  | None => s
  end.

(** The words handed to [bt_gatt_write_without_response], in order. *)
Definition written_words (out : list event) : list Z :=
  flat_map (fun e =>
    match e with
    | call_bt_gatt_write_without_response _ _ w _ _ => [w]
    | _ => []
    end) out.

(** ** GATT discovery *)

(** The session is looking for [u]: the parameter block points at
    [discover_uuid], which holds [u]. *)
Definition resolving (u : bt_uuid_16) (s : app) : Prop :=
  uuid (discover_params s) = Some addr_discover_uuid /\ discover_uuid s = u.

(** A host that accepts every request, and one that rejects every
    request with -EIO; both place a characteristic's value right after
    its declaration. *)
Definition host_ok : stack :=
  {| rc_dk_buttons_init := 0; rc_bt_enable := 0; rc_bt_le_scan_start := 0;
     rc_bt_le_scan_stop := 0; rc_bt_conn_le_create := 0; new_conn := 1%nat;
     rc_bt_gatt_discover := 0; rc_bt_gatt_subscribe := 0;
     rc_bt_gatt_write_without_response := 0; rc_bt_gatt_read := 0;
     rc_bt_conn_disconnect := 0;
     attr_value_handle := fun a => handle a + 1 |}.

Definition host_failing : stack :=
  {| rc_dk_buttons_init := -5; rc_bt_enable := -5; rc_bt_le_scan_start := -5;
     rc_bt_le_scan_stop := -5; rc_bt_conn_le_create := -5; new_conn := 1%nat;
     rc_bt_gatt_discover := -5; rc_bt_gatt_subscribe := -5;
     rc_bt_gatt_write_without_response := -5; rc_bt_gatt_read := -5;
     rc_bt_conn_disconnect := -5;
     attr_value_handle := fun a => handle a + 1 |}.

(** The globals as [main] leaves them when it starts discovery on
    connection 1. *)
Definition discovery_started : app :=
  set_discover_params
    {| uuid := Some addr_discover_uuid; func := Some cb_discover_func;
       start_handle := BT_ATT_FIRST_ATTRIBUTE_HANDLE;
       end_handle := BT_ATT_LAST_ATTRIBUTE_HANDLE;
       dtype := BT_GATT_DISCOVER_CHARACTERISTIC |}
    (set_discover_uuid BT_UUID_COLOR_SETTING
       (set_default_conn (Some 1%nat) app_init)).

Definition color_found : app :=
  after (discover_func host_ok 1%nat (Some {| handle := 0x0010; user_data := 0 |}))
    discovery_started.

Definition battery_found : app :=
  after (discover_func host_ok 1%nat (Some {| handle := 0x0013; user_data := 0 |}))
    color_found.

Definition operating : app :=
  after (discover_func host_ok 1%nat (Some {| handle := 0x0015; user_data := 0 |}))
    battery_found.

(** ** Advertisement filter *)

(** The characters of a C string held in an array: those before the
    first NUL. *)
Fixpoint cstring (buf : list ascii) : list ascii :=
  match buf with
  | [] => []
  | c :: rest => if Ascii.eqb c NUL then [] else c :: cstring rest
  end.

Fixpoint is_prefix (p l : list ascii) : bool :=
  match p, l with
  | [], _ => true
  | _ :: _, [] => false
  | a :: p', b :: l' => Ascii.eqb a b && is_prefix p' l'
  end.

Definition target_name : list ascii := list_ascii_of_string "PLAYBULB CANDLE II".

Definition is_name_field (d : bt_data) : bool :=
  (type d =? BT_DATA_NAME_SHORTENED) || (type d =? BT_DATA_NAME_COMPLETE).

Definition name_field_present (ad : list bt_data) : bool :=
  existsb is_name_field ad.

Definition connectable_or_scan_rsp (type : Z) : bool :=
  (type =? BT_GAP_ADV_TYPE_ADV_IND) || (type =? BT_GAP_ADV_TYPE_SCAN_RSP).

(** The name [device_found] extracts from a payload. *)
Definition extracted_name (ad : list bt_data) : list ascii :=
  cstring (name (bt_data_parse ad data_cb zero_adv_data)).

(** The four conditions of the filter. *)
Definition match_conditions (s : app) (type : Z) (ad : list bt_data) : Prop :=
  name_field_present ad = true /\
  connectable_or_scan_rsp type = true /\
  default_conn s = None /\
  is_prefix target_name (extracted_name ad) = true.

(** A payload carrying the complete local name of the bulb. *)
Definition bulb_advertisement : list bt_data :=
  [ {| type := 0x01; data := ["006"%char] |};
    {| type := BT_DATA_NAME_COMPLETE;
       data := list_ascii_of_string "PLAYBULB CANDLE II" |} ].

(** ** Connection lifecycle *)

(** The globals once [device_found] has asked for connection 1. *)
Definition connecting : app := set_default_conn (Some 1%nat) app_init.

(** ** Command dispatcher *)

(** A press of the color button alone, [n] times in a row. *)
Fixpoint rotate_color_times (st : stack) (n : nat) : M unit :=
  match n with
  | O => ret tt
  | S n' =>
      button_state_changed st BUTTON_COLOR BUTTON_COLOR;;
      rotate_color_times st n'
  end.

(** The encoded value of the table entry at index [i]. *)
Definition color_at (i : Z) : Z :=
  match nth_error color_array (Z.to_nat i) with
  | Some entry => color_value entry
  | None => 0
  end.

(** The display name of an encoded color value. *)
Definition name_of_color (w : Z) : string :=
  match find (fun e => color_value e =? w) color_array with
  | Some e => color_name e
  | None => ""
  end.

(** ** Control loop *)

(** The globals when [main] issues the first discovery request of a
    pass: the callbacks that ran during the scan, [sem_connected] taken,
    the discovery block set up for the color UUID over all handles. *)
Definition at_discovery (c : cycle) (s : app) : app :=
  set_discover_params
    {| uuid := Some addr_discover_uuid; func := Some cb_discover_func;
       start_handle := BT_ATT_FIRST_ATTRIBUTE_HANDLE;
       end_handle := BT_ATT_LAST_ATTRIBUTE_HANDLE;
       dtype := BT_GATT_DISCOVER_CHARACTERISTIC |}
    (set_discover_uuid BT_UUID_COLOR_SETTING
       (set_sem sem_connected false (while_scanning c s))).

(** The pass takes the recovery branch: the discovery request is
    rejected, or [sem_discovered] is not given within the 10 s wait. *)
Definition discovery_fails (c : cycle) (s : app) : Prop :=
  rc_bt_gatt_discover (host c) <> 0 \/
  sem_count (while_discovering c (at_discovery c s)) sem_discovered = false.

(** What a pass emits up to the recovery branch. *)
Definition recovery_prefix (c : cycle) (s : app) : list event :=
  [call_bt_le_scan_start;
   call_printk
     (if nonzero (rc_bt_le_scan_start (host c))
      then "Scanning failed to start (err %d)\n"
      else "Scanning successfully started\n ==> Will only be scanning devices with a NON-EMPTY device name <==\n");
   call_k_sem_take sem_connected K_FOREVER;
   call_bt_gatt_discover (default_conn (at_discovery c s))
     (discover_params (at_discovery c s)) BT_UUID_COLOR_SETTING]
  ++ (if nonzero (rc_bt_gatt_discover (host c))
      then [call_printk "Discovery failed (err %d)\n"]
      else [call_printk "Discovery started\n";
            call_k_sem_take sem_discovered (K_SECONDS 10);
            call_printk "Timed out during GATT discovery\n"]).

(** The bulb advertises, the connection to it (connection 1) comes up
    and its remote info arrives. *)
Definition peer_connects (s : app) : app :=
  after (remote_info_available_cb 1%nat)
    (after (connected host_ok 1%nat 0)
       (after (device_found host_ok 7 (-40) BT_GAP_ADV_TYPE_ADV_IND
                 bulb_advertisement) s)).





(** ** The host's calls into the application

    The callbacks [main.c] registers ([bt_le_scan_start(..., device_found)],
    [BT_CONN_CB_DEFINE], [discover_params.func], [subscribe_params.notify],
    [read_params.func], [dk_buttons_init(button_state_changed)]) and the
    arguments the host calls them with. *)
Inductive host_event :=
| on_device_found (addr : bt_addr_le_t) (rssi type : Z) (ad : list bt_data)
| on_connected (conn : bt_conn) (err : Z)
| on_disconnected (conn : bt_conn) (reason : Z)
| on_remote_info_available (conn : bt_conn)
| on_discover (conn : bt_conn) (attr : option bt_gatt_attr)
| on_notify (conn : bt_conn) (data : option (list Z)) (length : Z)
| on_battery_read (conn : bt_conn) (err : Z) (data : option (list Z)) (length : Z)
| on_button (button_state has_changed : Z).

(** One call of a callback; the iteration code a callback returns goes
    back to the host. *)
Definition dispatch (st : stack) (e : host_event) : M unit :=
  match e with
  | on_device_found addr rssi type ad => device_found st addr rssi type ad
  | on_connected conn err => connected st conn err
  | on_disconnected conn reason => disconnected conn reason
  | on_remote_info_available conn => remote_info_available_cb conn
  | on_discover conn attr => _ <- discover_func st conn attr;; ret tt
  | on_notify conn data length => _ <- notify_func conn data length;; ret tt
  | on_battery_read conn err data length =>
      _ <- battery_read_func conn err data length;; ret tt
  | on_button button_state has_changed =>
      button_state_changed st button_state has_changed
  end.

(** Callbacks run one at a time, in delivery order, each with the
    answers the host gives during it. *)
Fixpoint deliver (events : list (stack * host_event)) : M unit :=
  match events with
  | [] => ret tt
  | (st, e) :: rest => dispatch st e;; deliver rest
  end.

(** What every state reached through the callbacks satisfies. *)
Definition app_ok (s : app) : Prop :=
  0 <= current_color_index s < COLOR_COUNT /\
  sem_count s sem_written = false /\
  sem_count s sem_read_operation = false /\
  0 <= color_attr_handle s <= 0xFFFF /\
  0 <= battery_level_value_handle s <= 0xFFFF /\
  0 <= value_handle (subscribe_params s) <= 0xFFFF.

(** The host requests in a trace, console lines and semaphore calls left
    out. *)
Definition is_request (e : event) : bool :=
  match e with
  | call_printk _ | call_k_sem_give _ | call_k_sem_take _ _ => false
  | _ => true
  end.

Definition requests (out : list event) : list event := filter is_request out.

(** The single-button presses a button event stands for, in the order
    [button_state_changed] tests them. *)
Definition press (st : stack) (mask button_state has_changed : Z) : M unit :=
  if pressed mask button_state has_changed
  then button_state_changed st mask mask
  else ret tt.

(** The globals on entry to the operating wait of a pass: discovery was
    started and [sem_discovered] was taken. *)
Definition at_operating (c : cycle) (s : app) : app :=
  set_sem sem_discovered false (while_discovering c (at_discovery c s)).

(** Three attributes reported in turn to [discover_func] on connection
    [conn], each with its own host answers. *)
Definition discover_three (st1 st2 st3 : stack) (conn : bt_conn)
    (a1 a2 a3 : bt_gatt_attr) : M unit :=
  deliver [(st1, on_discover conn (Some a1));
           (st2, on_discover conn (Some a2));
           (st3, on_discover conn (Some a3))].

(** A host that stops the scan but refuses the connection. *)
Definition host_no_connect : stack :=
  {| rc_dk_buttons_init := 0; rc_bt_enable := 0; rc_bt_le_scan_start := 0;
     rc_bt_le_scan_stop := 0; rc_bt_conn_le_create := -12; new_conn := 1%nat;
     rc_bt_gatt_discover := 0; rc_bt_gatt_subscribe := 0;
     rc_bt_gatt_write_without_response := 0; rc_bt_gatt_read := 0;
     rc_bt_conn_disconnect := 0;
     attr_value_handle := fun a => handle a + 1 |}.

(** ** Scenarios *)

(** A pass in which the peer connects and then has no attribute with
    the color UUID. *)
Definition nothing_to_discover : cycle :=
  {| host := host_ok;
     while_scanning := peer_connects;
     while_discovering := after (discover_func host_ok 1%nat None);
     while_operating := fun s => s;
     while_disconnecting := after (disconnected 1%nat 0x16) |}.

(** A pass in which everything is found and the peer then goes away. *)
Definition found_then_gone : cycle :=
  {| host := host_ok;
     while_scanning := peer_connects;
     while_discovering :=
       after (discover_three host_ok host_ok host_ok 1%nat
                {| handle := 0x0010; user_data := 0 |}
                {| handle := 0x0013; user_data := 0 |}
                {| handle := 0x0015; user_data := 0 |});
     while_operating := after (disconnected 1%nat 0x08);
     while_disconnecting := fun s => s |}.


(** The globals before any connection, with the discovery block as
    [main] sets it up. *)
Definition discovery_ready : app :=
  set_discover_params
    {| uuid := Some addr_discover_uuid; func := Some cb_discover_func;
       start_handle := BT_ATT_FIRST_ATTRIBUTE_HANDLE;
       end_handle := BT_ATT_LAST_ATTRIBUTE_HANDLE;
       dtype := BT_GATT_DISCOVER_CHARACTERISTIC |}
    (set_discover_uuid BT_UUID_COLOR_SETTING app_init).

(** One life of a connection, as the host reports it. *)
Definition one_connection : list (stack * host_event) :=
  [(host_ok, on_device_found 7 (-40) BT_GAP_ADV_TYPE_ADV_IND bulb_advertisement);
   (host_ok, on_connected 1%nat 0);
   (host_ok, on_remote_info_available 1%nat);
   (host_ok, on_discover 1%nat (Some {| handle := 0x0010; user_data := 0 |}));
   (host_ok, on_discover 1%nat (Some {| handle := 0x0013; user_data := 0 |}));
   (host_ok, on_discover 1%nat (Some {| handle := 0x0015; user_data := 0 |}));
   (host_ok, on_button 0x03 0x03);
   (host_ok, on_battery_read 1%nat 0 (Some [0x64]) 1);
   (host_ok, on_notify 1%nat (Some [0x63]) 1);
   (host_ok, on_button 0x08 0x08);
   (host_ok, on_disconnected 1%nat 0x16)].

(** The bulb is found and connected, and the link is lost before its
    remote info arrives. *)
Definition lost_before_remote_info : list (stack * host_event) :=
  [(host_ok, on_device_found 7 (-40) BT_GAP_ADV_TYPE_ADV_IND bulb_advertisement);
   (host_ok, on_connected 1%nat 0);
   (host_ok, on_disconnected 1%nat 0x3E)].

(** A pass in which that is all the host reports. *)
Definition link_lost_before_discovery : cycle :=
  {| host := host_ok;
     while_scanning := after (deliver lost_before_remote_info);
     while_discovering := fun s => s;
     while_operating := fun s => s;
     while_disconnecting := fun s => s |}.

(** * Properties *)

(** ** Tactics and basic facts *)

#[local] Arguments wrap : simpl never.
#[local] Arguments u8 : simpl never.
#[local] Arguments u16 : simpl never.
#[local] Arguments u32 : simpl never.
#[local] Arguments Z.modulo : simpl never.

Ltac run :=
  unfold bind, ret, get, modify, emit, fault, deref, printk, k_sem_give in *;
  cbn in *.

Lemma nonzero_true x : nonzero x = true <-> x <> 0.
Proof.
  unfold nonzero. rewrite negb_true_iff, Z.eqb_neq. tauto.
Qed.

Lemma nonzero_false x : nonzero x = false <-> x = 0.
Proof.
  unfold nonzero. rewrite negb_false_iff, Z.eqb_eq. tauto.
Qed.

Lemma u16_small x : 0 <= x <= 0xFFFF -> u16 x = x.
Proof.
  intros H. unfold u16, wrap. apply Z.mod_small. lia.
Qed.

(** ** GATT discovery *)

(** C1, as the code has it: in the color phase the value handle becomes
    [color_attr_handle], the range start becomes the matched handle plus
    1 in 16-bit arithmetic (the plain sum whenever that is a handle), the
    target becomes the Battery Level UUID and one characteristic
    discovery is requested; in the battery phase the value handle becomes
    [battery_level_value_handle] and [subscribe_params.value_handle], the
    range start becomes the matched handle plus 2 in 16-bit arithmetic,
    the target becomes the CCCD UUID and one descriptor discovery is
    requested.  Both for every host answer and every attribute. *)
Theorem discover_func_chain st conn attr s :
  (resolving BT_UUID_COLOR_SETTING s ->
   exists s' out,
     discover_func st conn (Some attr) s = Some (BT_GATT_ITER_STOP, s', out) /\
     out =
       [call_printk "Discovered [ATTRIBUTE] with handle %u\n";
        call_printk "Discovery of Color Setting Characteristic Successful\n";
        call_printk "Color Setting Characteristic Handle = %u\n";
        call_bt_gatt_discover (Some conn) (discover_params s')
          BT_UUID_BAS_BATTERY_LEVEL]
       ++ (if nonzero (rc_bt_gatt_discover st)
           then [call_printk "Discover failed (err %d)\n"] else []) /\
     color_attr_handle s' = bt_gatt_attr_value_handle st attr /\
     start_handle (discover_params s') = u16 (handle attr + 1) /\
     (0 <= handle attr < 0xFFFF ->
      start_handle (discover_params s') = handle attr + 1) /\
     end_handle (discover_params s') = end_handle (discover_params s) /\
     dtype (discover_params s') = BT_GATT_DISCOVER_CHARACTERISTIC /\
     resolving BT_UUID_BAS_BATTERY_LEVEL s') /\
  (resolving BT_UUID_BAS_BATTERY_LEVEL s ->
   exists s' out,
     discover_func st conn (Some attr) s = Some (BT_GATT_ITER_STOP, s', out) /\
     out =
       [call_printk "Discovered [ATTRIBUTE] with handle %u\n";
        call_printk "Discovery of Battery Level Characteristic Successful\n";
        call_printk "Battery Level Characteristic Handle = %u\n";
        call_bt_gatt_discover (Some conn) (discover_params s')
          BT_UUID_GATT_CCC]
       ++ (if nonzero (rc_bt_gatt_discover st)
           then [call_printk "Discover failed (err %d)\n"] else []) /\
     battery_level_value_handle s' = bt_gatt_attr_value_handle st attr /\
     value_handle (subscribe_params s') = bt_gatt_attr_value_handle st attr /\
     start_handle (discover_params s') = u16 (handle attr + 2) /\
     (0 <= handle attr < 0xFFFE ->
      start_handle (discover_params s') = handle attr + 2) /\
     end_handle (discover_params s') = end_handle (discover_params s) /\
     dtype (discover_params s') = BT_GATT_DISCOVER_DESCRIPTOR /\
     color_attr_handle s' = color_attr_handle s /\
     resolving BT_UUID_GATT_CCC s').
Proof.
  split; intros [Hptr Huuid]; unfold discover_func; run;
    rewrite Hptr, Huuid; cbn;
    destruct (nonzero (rc_bt_gatt_discover st)); cbn;
    eexists; eexists; (split; [reflexivity|]); cbn;
    repeat split; try reflexivity; intros; apply u16_small; lia.
Qed.

Lemma discover_func_chain_witness :
  (exists s' out,
     discover_func host_ok 1%nat (Some {| handle := 0x0010; user_data := 0 |})
       discovery_started = Some (BT_GATT_ITER_STOP, s', out) /\
     color_attr_handle s' = 0x0011 /\
     start_handle (discover_params s') = 0x0011) /\
  (exists s' out,
     discover_func host_ok 1%nat (Some {| handle := 0x0013; user_data := 0 |})
       color_found = Some (BT_GATT_ITER_STOP, s', out) /\
     battery_level_value_handle s' = 0x0014 /\
     start_handle (discover_params s') = 0x0015).
Proof.
  split.
  - destruct (discover_func_chain host_ok 1%nat
                {| handle := 0x0010; user_data := 0 |} discovery_started)
      as [Hcolor _].
    destruct Hcolor as (s' & out & Hrun & _ & Hh & _ & Hstart & _).
    + split; reflexivity.
    + exists s', out. repeat split.
      * exact Hrun.
      * rewrite Hh. reflexivity.
      * rewrite Hstart; [reflexivity | cbn; lia].
  - destruct (discover_func_chain host_ok 1%nat
                {| handle := 0x0013; user_data := 0 |} color_found)
      as [_ Hbattery].
    destruct Hbattery as (s' & out & Hrun & _ & Hh & _ & _ & Hstart & _).
    + split; reflexivity.
    + exists s', out. repeat split.
      * exact Hrun.
      * rewrite Hh. reflexivity.
      * rewrite Hstart; [reflexivity | cbn; lia].
Defined.

(** C1 as written fails at the top of the handle space: a Battery Level
    declaration at 0xFFFE (value at 0xFFFF) leaves the range start at 0,
    not two handles further on. *)
Lemma start_handle_wraps_at_last_handle :
  exists s' out,
    resolving BT_UUID_BAS_BATTERY_LEVEL color_found /\
    discover_func host_ok 1%nat (Some {| handle := 0xFFFE; user_data := 0 |})
      color_found = Some (BT_GATT_ITER_STOP, s', out) /\
    battery_level_value_handle s' = 0xFFFF /\
    start_handle (discover_params s') = 0 /\
    0xFFFE + 2 = 0x10000.
Proof.
  eexists. eexists. split; [split; reflexivity|].
  split; [reflexivity|]. repeat split.
Qed.

(** C7: in the CCCD phase, whatever [bt_gatt_subscribe] answers, the
    callback fills in the subscription, issues that one request, logs
    "Subscribe failed" exactly when the answer is an error other than
    -EALREADY, gives [sem_discovered], and stops the iteration; the
    discovery parameters are left alone and no discovery is requested. *)
Theorem discover_func_cccd_completes st conn attr s :
  resolving BT_UUID_GATT_CCC s ->
  exists s' line,
    discover_func st conn (Some attr) s =
      Some (BT_GATT_ITER_STOP, s',
            [call_printk "Discovered [ATTRIBUTE] with handle %u\n";
             call_printk "Discovery of Battery Level Characteristic CCCD Successful. Subscribing to notifications now.\n";
             call_bt_gatt_subscribe (Some conn)
               {| notify := Some cb_notify_func; value := BT_GATT_CCC_NOTIFY;
                  value_handle := value_handle (subscribe_params s);
                  ccc_handle := handle attr |};
             call_printk line;
             call_k_sem_give sem_discovered]) /\
    (rc_bt_gatt_subscribe st <> 0 /\ rc_bt_gatt_subscribe st <> - EALREADY ->
     line = "Subscribe failed (err %d)\n") /\
    (rc_bt_gatt_subscribe st = 0 \/ rc_bt_gatt_subscribe st = - EALREADY ->
     line = "[SUBSCRIBED]\n") /\
    sem_count s' sem_discovered = true /\
    ccc_handle (subscribe_params s') = handle attr /\
    discover_params s' = discover_params s /\
    discover_uuid s' = discover_uuid s.
Proof.
  intros [Hptr Huuid]. unfold discover_func, bt_gatt_subscribe, nonzero. run.
  rewrite Hptr, Huuid. cbn.
  destruct (rc_bt_gatt_subscribe st =? 0) eqn:Hz;
    match goal with
    | |- context [rc_bt_gatt_subscribe st =? ?e] =>
        destruct (rc_bt_gatt_subscribe st =? e) eqn:Hal
    end; cbn;
    eexists; eexists; (split; [reflexivity|]); cbn;
    rewrite ?Z.eqb_eq, ?Z.eqb_neq in Hz;
    rewrite ?Z.eqb_eq, ?Z.eqb_neq in Hal;
    unfold EALREADY;
    repeat split; try reflexivity; intros; intuition congruence.
Qed.

Lemma discover_func_cccd_completes_witness :
  exists s',
    discover_func host_failing 1%nat (Some {| handle := 0x0015; user_data := 0 |})
      battery_found =
      Some (BT_GATT_ITER_STOP, s',
            [call_printk "Discovered [ATTRIBUTE] with handle %u\n";
             call_printk "Discovery of Battery Level Characteristic CCCD Successful. Subscribing to notifications now.\n";
             call_bt_gatt_subscribe (Some 1%nat)
               {| notify := Some cb_notify_func; value := BT_GATT_CCC_NOTIFY;
                  value_handle := 0x0014; ccc_handle := 0x0015 |};
             call_printk "Subscribe failed (err %d)\n";
             call_k_sem_give sem_discovered]) /\
    sem_count s' sem_discovered = true.
Proof.
  destruct (discover_func_cccd_completes host_failing 1%nat
              {| handle := 0x0015; user_data := 0 |} battery_found)
    as (s' & line & Hrun & Hfailed & _ & Hsem & _).
  - split; reflexivity.
  - exists s'. rewrite Hfailed in Hrun.
    + split; [exact Hrun | exact Hsem].
    + split; cbn; unfold EALREADY; lia.
Defined.

(** ** Advertisement filter *)

Lemma uchar_inj a b : uchar a = uchar b -> a = b.
Proof.
  unfold uchar. intros H. apply N2Z.inj in H.
  rewrite <- (ascii_N_embedding a), <- (ascii_N_embedding b). now rewrite H.
Qed.

Lemma strncmp_is_prefix t :
  Forall (fun c => c <> NUL) t ->
  forall buf,
    strncmp (t ++ [NUL]) buf (List.length t) = 0 <->
    is_prefix t (cstring buf) = true.
Proof.
  induction 1 as [|a t Ha Ht IH]; intros buf.
  - cbn. tauto.
  - assert (HaN : Ascii.eqb a NUL = false) by now apply Ascii.eqb_neq.
    cbn [List.length strncmp List.app hd tl].
    destruct buf as [|b rest]; cbn [hd tl cstring].
    + rewrite HaN. cbn [negb is_prefix]. split; [|discriminate].
      intros E. exfalso. apply Ha. apply uchar_inj. cbn [uchar NUL] in *. lia.
    + destruct (Ascii.eqb a b) eqn:Eab; cbn [negb].
      * apply Ascii.eqb_eq in Eab. subst b. rewrite HaN.
        cbn [is_prefix]. rewrite Ascii.eqb_refl. cbn [andb]. apply IH.
      * split.
        -- intros E. exfalso. apply Ascii.eqb_neq in Eab. apply Eab.
           apply uchar_inj. lia.
        -- destruct (Ascii.eqb b NUL); cbn [is_prefix]; [discriminate|].
           rewrite Eab. discriminate.
Qed.

Lemma PERIPHERAL_NAME_match buf :
  strncmp PERIPHERAL_NAME buf (strlen PERIPHERAL_NAME) = 0 <->
  is_prefix target_name (cstring buf) = true.
Proof.
  change (strlen PERIPHERAL_NAME) with (List.length target_name).
  change PERIPHERAL_NAME with (target_name ++ [NUL]).
  apply strncmp_is_prefix.
  repeat constructor; discriminate.
Qed.

(** [bt_data_parse] with [data_cb] looks at the first name field only. *)
Lemma bt_data_parse_data_cb ad u :
  bt_data_parse ad data_cb u =
  match find is_name_field ad with
  | Some d => snd (data_cb d u)
  | None => u
  end.
Proof.
  induction ad as [|d rest IH]; [reflexivity|].
  cbn [bt_data_parse find].
  destruct (is_name_field d) eqn:E; unfold is_name_field in E.
  - unfold data_cb. rewrite E. reflexivity.
  - unfold data_cb at 1. rewrite E. apply IH.
Qed.

Lemma name_field_present_find ad :
  name_field_present ad = true <-> exists d, find is_name_field ad = Some d.
Proof.
  unfold name_field_present. induction ad as [|d rest IH]; cbn.
  - split; [discriminate | intros [d H]; discriminate].
  - destruct (is_name_field d); cbn; [|exact IH].
    split; eauto.
Qed.

(** A payload whose extracted length is 0 has an empty extracted name. *)
Lemma empty_name ad :
  length (bt_data_parse ad data_cb zero_adv_data) = 0 ->
  extracted_name ad = [].
Proof.
  unfold extracted_name. rewrite bt_data_parse_data_cb.
  destruct (find is_name_field ad) as [d|] eqn:Hfind; [|reflexivity].
  apply find_some in Hfind. destruct Hfind as [_ Hname].
  unfold data_cb. unfold is_name_field in Hname. rewrite Hname.
  cbn [snd length name]. intros ->. reflexivity.
Qed.

Lemma nonempty_name_has_field ad :
  length (bt_data_parse ad data_cb zero_adv_data) <> 0 ->
  name_field_present ad = true.
Proof.
  intros H. apply name_field_present_find.
  rewrite bt_data_parse_data_cb in H.
  destruct (find is_name_field ad) as [d|]; [eauto | now elim H].
Qed.

(** C2, as the code has it: the stop-scan request is issued exactly when
    the four conditions hold, and the connect request exactly when they
    hold and the stop-scan request was accepted; a record that fails a
    condition changes nothing and reaches the host with no request. *)
Theorem device_found_match st addr rssi type ad s :
  exists s' out,
    device_found st addr rssi type ad s = Some (tt, s', out) /\
    (In call_bt_le_scan_stop out <-> match_conditions s type ad) /\
    (In (call_bt_conn_le_create addr) out <->
     match_conditions s type ad /\ rc_bt_le_scan_stop st = 0) /\
    (~ match_conditions s type ad ->
     s' = s /\
     (out = [] \/
      out = [call_printk "Device found [%s]: %s with name [%d]: |%s| (RSSI %d)\n"])).
Proof.
  unfold device_found, match_conditions, connectable_or_scan_rsp.
  pose proof (empty_name ad) as Hempty.
  pose proof (nonempty_name_has_field ad) as Hfield.
  pose proof (PERIPHERAL_NAME_match
                (name (bt_data_parse ad data_cb zero_adv_data))) as Hcmp.
  fold (extracted_name ad) in Hcmp.
  remember (bt_data_parse ad data_cb zero_adv_data) as parsed.
  remember (strncmp PERIPHERAL_NAME (name parsed) (strlen PERIPHERAL_NAME)) as cmp.
  unfold bt_le_scan_stop, bt_conn_le_create, start_scan, bt_le_scan_start. run.
  destruct (default_conn s) as [c|] eqn:Hconn; cbn.
  { exists s, []. split; [reflexivity|]. cbn. intuition congruence. }
  destruct ((type =? BT_GAP_ADV_TYPE_ADV_IND) || (type =? BT_GAP_ADV_TYPE_SCAN_RSP))
    eqn:Hkind.
  2:{ apply orb_false_iff in Hkind. destruct Hkind as [-> ->]. cbn.
      exists s, []. split; [reflexivity|]. cbn. intuition congruence. }
  replace (negb (type =? BT_GAP_ADV_TYPE_ADV_IND) &&
           negb (type =? BT_GAP_ADV_TYPE_SCAN_RSP)) with false
    by (rewrite <- negb_orb, Hkind; reflexivity).
  destruct (length parsed =? 0) eqn:Hlen; cbn.
  { apply Z.eqb_eq in Hlen. rewrite (Hempty Hlen).
    exists s, []. split; [reflexivity|]. cbn.
    intuition (try congruence; try discriminate). }
  apply Z.eqb_neq in Hlen. specialize (Hfield Hlen).
  destruct (cmp =? 0) eqn:Hz; cbn.
  2:{ apply Z.eqb_neq in Hz.
      assert (is_prefix target_name (extracted_name ad) <> true) by tauto.
      eexists. eexists. split; [reflexivity|]. cbn.
      intuition (try congruence; try discriminate). }
  apply Z.eqb_eq in Hz. apply Hcmp in Hz.
  destruct (nonzero (rc_bt_le_scan_stop st)) eqn:Hstop; cbn.
  { apply nonzero_true in Hstop.
    eexists. eexists. split; [reflexivity|]. cbn.
    intuition (try congruence; try discriminate). }
  apply nonzero_false in Hstop.
  destruct (rc_bt_conn_le_create st =? 0) eqn:Hcreate; cbn.
  { eexists. eexists. split; [reflexivity|]. cbn. intuition. }
  apply Z.eqb_neq in Hcreate. rewrite (proj2 (nonzero_true _) Hcreate). cbn.
  destruct (nonzero (rc_bt_le_scan_start st)); cbn;
    eexists; eexists; (split; [reflexivity|]); cbn; intuition.
Qed.

(** C2 as written fails when the host refuses to stop scanning: all four
    conditions hold, yet no connect request is issued and the scan goes
    on. *)
Lemma no_connect_when_scan_stop_fails :
  match_conditions app_init BT_GAP_ADV_TYPE_ADV_IND bulb_advertisement /\
  device_found host_failing 7 (-40) BT_GAP_ADV_TYPE_ADV_IND bulb_advertisement
    app_init =
    Some (tt, app_init,
          [call_printk "Device found [%s]: %s with name [%d]: |%s| (RSSI %d)\n";
           call_bt_le_scan_stop]).
Proof.
  split; [repeat split|]; reflexivity.
Qed.

(** ** Connection lifecycle *)

Lemma conn_eqb_eq a b : conn_eqb a b = true <-> a = b.
Proof.
  destruct a as [x|], b as [y|]; cbn; try (split; congruence).
  rewrite Nat.eqb_eq. split; congruence.
Qed.


(** ** Command dispatcher *)

Lemma u32_mod_4 x : u32 x mod 4 = x mod 4.
Proof.
  unfold u32, wrap. apply Z.mod_mod_divide.
  exists (2 ^ 30). reflexivity.
Qed.

Lemma mod_4_cases x : x mod 4 = 0 \/ x mod 4 = 1 \/ x mod 4 = 2 \/ x mod 4 = 3.
Proof.
  pose proof (Z.mod_pos_bound x 4). lia.
Qed.

(** One press of the color button alone. *)
Lemma rotate_color_once st s :
  exists entry line,
    nth_error color_array (Z.to_nat ((current_color_index s + 1) mod 4)) = Some entry /\
    button_state_changed st BUTTON_COLOR BUTTON_COLOR s =
      Some (tt, set_current_color_index ((current_color_index s + 1) mod 4) s,
            [call_printk "Changing color to next one in array\n";
             call_printk "Setting color to: %s\n";
             call_bt_gatt_write_without_response (default_conn s)
               (color_attr_handle s) (color_value entry) 4 false;
             call_printk line]).
Proof.
  unfold button_state_changed, toggle_color, bt_gatt_write_without_response.
  run. rewrite u32_mod_4.
  destruct (mod_4_cases (current_color_index s + 1)) as [E|[E|[E|E]]];
    rewrite E; cbn;
    destruct (nonzero (rc_bt_gatt_write_without_response st)); cbn;
    eexists; eexists; split; reflexivity.
Qed.

Lemma bind_some {A B} (m : M A) (f : A -> M B) s a s1 o1 b s2 o2 :
  m s = Some (a, s1, o1) ->
  f a s1 = Some (b, s2, o2) ->
  bind m f s = Some (b, s2, o1 ++ o2).
Proof.
  intros Hm Hf. unfold bind. rewrite Hm, Hf. reflexivity.
Qed.

Lemma written_words_app o1 o2 :
  written_words (o1 ++ o2) = written_words o1 ++ written_words o2.
Proof.
  unfold written_words. apply flat_map_app.
Qed.

(** [n] presses of the color button write the [n] table entries that
    follow the starting index, going round the table. *)
Lemma rotate_color_times_words st n :
  forall s,
  exists s' out,
    rotate_color_times st n s = Some (tt, s', out) /\
    written_words out =
      map (fun k => color_at ((current_color_index s + Z.of_nat k) mod 4))
        (seq 1 n) /\
    (n <> O ->
     current_color_index s' = (current_color_index s + Z.of_nat n) mod 4).
Proof.
  induction n as [|n IH]; intros s.
  - exists s, []. repeat split. intros H. now elim H.
  - destruct (rotate_color_once st s) as (entry & line & Hnth & Hrun).
    destruct (IH (set_current_color_index ((current_color_index s + 1) mod 4) s))
      as (s' & out & Hrest & Hwords & Hidx).
    cbn [current_color_index set_current_color_index] in Hwords, Hidx.
    eexists. eexists. split.
    { cbn [rotate_color_times]. eapply bind_some; [exact Hrun | exact Hrest]. }
    split.
    + rewrite written_words_app, Hwords. cbn [written_words flat_map List.app seq map].
      f_equal.
      * unfold color_at. change (Z.of_nat 1) with 1. now rewrite Hnth.
      * rewrite <- (seq_shift n 1), map_map. apply map_ext. intros k.
        rewrite Z.add_mod_idemp_l by lia. f_equal. f_equal. lia.
    + intros _. destruct n as [|n'].
      * cbn in Hrest. inversion Hrest. reflexivity.
      * rewrite Hidx by discriminate.
        rewrite Z.add_mod_idemp_l by lia. f_equal. lia.
Qed.

(** C5, as the code has it: every press of the color button moves
    [current_color_index] to the next index modulo 4 (3 goes to 0) and
    then writes the entry at the new index, so from index 0 five presses
    write Red, Green, Blue, White, Red. *)
Theorem rotate_color_advances_then_writes :
  (forall st button_state has_changed s,
     pressed BUTTON_COLOR button_state has_changed = true ->
     exists s' out entry rest,
       button_state_changed st button_state has_changed s = Some (tt, s', out) /\
       current_color_index s' = (current_color_index s + 1) mod 4 /\
       nth_error color_array (Z.to_nat (current_color_index s')) = Some entry /\
       out =
         [call_printk "Changing color to next one in array\n";
          call_printk "Setting color to: %s\n";
          call_bt_gatt_write_without_response (default_conn s)
            (color_attr_handle s) (color_value entry) 4 false] ++ rest) /\
  (forall st s,
     current_color_index s = 3 ->
     current_color_index
       (after (button_state_changed st BUTTON_COLOR BUTTON_COLOR) s) = 0) /\
  (forall st s,
     current_color_index s = 0 ->
     exists s' out,
       rotate_color_times st 5 s = Some (tt, s', out) /\
       written_words out =
         [COLOR_RED; COLOR_GREEN; COLOR_BLUE; COLOR_WHITE; COLOR_RED]).
Proof.
  split; [|split].
  - intros st button_state has_changed s Hcolor.
    unfold button_state_changed. rewrite Hcolor.
    unfold toggle_color, read_battery_level, bt_gatt_write_without_response,
      bt_gatt_read, bt_conn_get_info, bt_conn_le_param_update, bt_conn_disconnect.
    destruct (pressed BUTTON_BATTERY_LEVEL button_state has_changed);
      destruct (pressed BUTTON_CONN_PARAMS button_state has_changed);
      destruct (pressed BUTTON_DISCONNECT button_state has_changed);
      run; rewrite u32_mod_4;
      destruct (mod_4_cases (current_color_index s + 1)) as [E|[E|[E|E]]];
      rewrite E; cbn;
      destruct (nonzero (rc_bt_gatt_write_without_response st)); cbn;
      try (destruct (nonzero (rc_bt_gatt_read st)); cbn);
      eexists; eexists; eexists; eexists;
      (split; [reflexivity|]); cbn;
      (split; [reflexivity|]); (split; [reflexivity|]); reflexivity.
  - intros st s Hidx.
    destruct (rotate_color_once st s) as (entry & line & _ & Hrun).
    unfold after. rewrite Hrun. cbn. rewrite Hidx. reflexivity.
  - intros st s Hidx.
    destruct (rotate_color_times_words st 5 s) as (s' & out & Hrun & Hwords & _).
    exists s', out. split; [exact Hrun|].
    rewrite Hwords, Hidx. reflexivity.
Qed.

Lemma rotate_color_advances_then_writes_witness :
  (exists s' out,
     rotate_color_times host_ok 5 app_init = Some (tt, s', out) /\
     written_words out =
       [COLOR_RED; COLOR_GREEN; COLOR_BLUE; COLOR_WHITE; COLOR_RED]) /\
  (exists s' out,
     button_state_changed host_ok 1 1 app_init = Some (tt, s', out) /\
     current_color_index s' = 1).
Proof.
  destruct rotate_color_advances_then_writes as (Hpress & _ & Hfive).
  split.
  - apply (Hfive host_ok app_init). reflexivity.
  - destruct (Hpress host_ok 1 1 app_init) as (s' & out & _ & _ & Hrun & Hidx & _).
    + reflexivity.
    + exists s', out. split; [exact Hrun | exact Hidx].
Defined.

(** C5 as written fails in its scenario: from index 0 the first four
    presses write Red, Green, Blue, White (not White, Red, Green, Blue),
    and the fifth writes Red (not White). *)
Lemma first_press_writes_red :
  exists s' out,
    current_color_index app_init = 0 /\
    rotate_color_times host_ok 5 app_init = Some (tt, s', out) /\
    map name_of_color (written_words out) =
      ["Red"; "Green"; "Blue"; "White"; "Red"] /\
    written_words out =
      [COLOR_RED; COLOR_GREEN; COLOR_BLUE; COLOR_WHITE; COLOR_RED].
Proof.
  eexists. eexists. split; [reflexivity|]. split; [reflexivity|].
  split; reflexivity.
Qed.

(** C6, as the code has it: none of the four button actions looks at
    [default_conn] or at the resolved handles.  In every state, each
    button alone issues its request to the host with whatever
    [default_conn] and handle the globals hold; the color button also
    advances the index and the battery button also fills in
    [read_params]. *)
Theorem button_state_changed_unguarded st s :
  (exists entry line,
     nth_error color_array (Z.to_nat ((current_color_index s + 1) mod 4)) = Some entry /\
     button_state_changed st BUTTON_COLOR BUTTON_COLOR s =
       Some (tt, set_current_color_index ((current_color_index s + 1) mod 4) s,
             [call_printk "Changing color to next one in array\n";
              call_printk "Setting color to: %s\n";
              call_bt_gatt_write_without_response (default_conn s)
                (color_attr_handle s) (color_value entry) 4 false;
              call_printk line])) /\
  button_state_changed st BUTTON_BATTERY_LEVEL BUTTON_BATTERY_LEVEL s =
    Some (tt,
          set_read_params
            {| read_func := Some cb_battery_read_func; handle_count := 1;
               single_handle := battery_level_value_handle s;
               single_offset := 0 |} s,
          [call_printk "Reading the Battery Level\n";
           call_bt_gatt_read (default_conn s)
             {| read_func := Some cb_battery_read_func; handle_count := 1;
                single_handle := battery_level_value_handle s;
                single_offset := 0 |}]
          ++ (if nonzero (rc_bt_gatt_read st)
              then [call_printk "Read not successful!\n"] else [])) /\
  button_state_changed st BUTTON_CONN_PARAMS BUTTON_CONN_PARAMS s =
    Some (tt, s,
          [call_printk "Current Connection Parameters\n";
           call_bt_conn_get_info (default_conn s);
           call_printk "Interval: %0.2f ms, Latency: %u, Timeout: %u ms\n";
           call_printk "Updating Connection Parameters\n";
           call_bt_conn_le_param_update (default_conn s) 6 6 0 400;
           call_printk "Updated Connection Parameters\n";
           call_printk "Interval: %0.2f ms, Latency: %u, Timeout: %u ms\n"]) /\
  button_state_changed st BUTTON_DISCONNECT BUTTON_DISCONNECT s =
    Some (tt, s,
          [call_printk "Disconnecting from device\n";
           call_bt_conn_disconnect (default_conn s)
             BT_HCI_ERR_REMOTE_USER_TERM_CONN]).
Proof.
  split; [apply rotate_color_once|].
  split; [|split; reflexivity].
  unfold button_state_changed, read_battery_level, bt_gatt_read. run.
  destruct (nonzero (rc_bt_gatt_read st)); reflexivity.
Qed.

(** C6 as written fails: before any connection or discovery, the color
    button changes [current_color_index] and sends a write for handle 0
    on a NULL connection, and the disconnect button sends a disconnect
    request for a NULL connection. *)
Lemma buttons_act_without_connection :
  default_conn app_init = None /\
  color_attr_handle app_init = 0 /\
  battery_level_value_handle app_init = 0 /\
  (exists s',
     button_state_changed host_ok BUTTON_COLOR BUTTON_COLOR app_init =
       Some (tt, s',
             [call_printk "Changing color to next one in array\n";
              call_printk "Setting color to: %s\n";
              call_bt_gatt_write_without_response None 0 COLOR_RED 4 false;
              call_printk "Write without response sent successfully.\n"]) /\
     current_color_index app_init = 0 /\
     current_color_index s' = 1) /\
  button_state_changed host_ok BUTTON_DISCONNECT BUTTON_DISCONNECT app_init =
    Some (tt, app_init,
          [call_printk "Disconnecting from device\n";
           call_bt_conn_disconnect None BT_HCI_ERR_REMOTE_USER_TERM_CONN]).
Proof.
  repeat split. eexists. repeat split.
Qed.

(** ** Notifications and reads *)

(** C8, as the code has it: [notify_func] tests the data pointer, not
    the length.  Called with NULL it clears [subscribe_params.value_handle]
    and stops the iteration, and that is the only call that does either;
    called with data it changes nothing and continues, whatever [length]
    says. *)
Theorem notify_func_stops_on_null_only conn data length s :
  (data = None ->
   notify_func conn data length s =
     Some (BT_GATT_ITER_STOP,
           set_subscribe_params
             {| notify := notify (subscribe_params s);
                value := value (subscribe_params s);
                value_handle := 0;
                ccc_handle := ccc_handle (subscribe_params s) |} s,
           [call_printk "[UNSUBSCRIBED]\n"])) /\
  (forall b rest,
     data = Some (b :: rest) ->
     notify_func conn data length s =
       Some (BT_GATT_ITER_CONTINUE, s,
             [call_printk "Received notification for Battery Level (%u): %u%%\n"])) /\
  (forall r s' out,
     notify_func conn data length s = Some (r, s', out) ->
     r = BT_GATT_ITER_STOP \/ s' <> s ->
     data = None).
Proof.
  split; [intros ->; reflexivity|].
  split; [intros b rest ->; reflexivity|].
  intros r s' out Hrun Hchanged.
  destruct data as [[|b rest]|]; [discriminate| |reflexivity].
  cbn in Hrun. inversion Hrun; subst.
  destruct Hchanged as [H|H]; [discriminate | now elim H].
Qed.

Lemma notify_func_stops_on_null_only_witness :
  (exists s',
     notify_func 1%nat None 0 operating =
       Some (BT_GATT_ITER_STOP, s', [call_printk "[UNSUBSCRIBED]\n"]) /\
     value_handle (subscribe_params operating) = 0x0014 /\
     value_handle (subscribe_params s') = 0) /\
  notify_func 1%nat (Some [0x55]) 1 operating =
    Some (BT_GATT_ITER_CONTINUE, operating,
          [call_printk "Received notification for Battery Level (%u): %u%%\n"]).
Proof.
  destruct (notify_func_stops_on_null_only 1%nat None 0 operating)
    as (Hnull & _ & _).
  destruct (notify_func_stops_on_null_only 1%nat (Some [0x55]) 1 operating)
    as (_ & Hdata & _).
  split.
  - eexists. split; [apply Hnull; reflexivity|]. split; reflexivity.
  - apply (Hdata 0x55 []). reflexivity.
Defined.

(** C8 as written fails for a notification whose value is empty: the
    host passes a non-NULL pointer with length 0, and the subscription
    stays as it was and the iteration continues. *)
Lemma zero_length_notification_continues :
  notify_func 1%nat (Some [0x55]) 0 operating =
    Some (BT_GATT_ITER_CONTINUE, operating,
          [call_printk "Received notification for Battery Level (%u): %u%%\n"]) /\
  value_handle (subscribe_params operating) = 0x0014 /\
  BT_GATT_ITER_CONTINUE = 1 /\ BT_GATT_ITER_STOP = 0.
Proof.
  repeat split.
Qed.

(** C10: [battery_read_func] reads the first byte at [data] before
    anything else, whatever [err] is.  It completes exactly when [data]
    points at a byte, and faults on NULL, where [notify_func] returns. *)
Theorem battery_read_func_needs_a_byte conn err data length s :
  ((exists r, battery_read_func conn err data length s = Some r) <->
   (exists b rest, data = Some (b :: rest))) /\
  (forall b rest,
     data = Some (b :: rest) ->
     battery_read_func conn err data length s =
       Some (BT_GATT_ITER_STOP, s, [call_printk "Battery Level = %u%%\n"])) /\
  battery_read_func conn err None length s = None /\
  battery_read_func conn err (Some []) length s = None /\
  (exists r, notify_func conn None length s = Some r).
Proof.
  repeat split.
  - intros [r Hr]. destruct data as [[|b rest]|]; try discriminate. eauto.
  - intros (b & rest & ->). eexists. reflexivity.
  - intros b rest ->. reflexivity.
  - eexists. reflexivity.
Qed.

Lemma battery_read_func_needs_a_byte_witness :
  battery_read_func 1%nat 0 (Some [0x64]) 1 operating =
    Some (BT_GATT_ITER_STOP, operating, [call_printk "Battery Level = %u%%\n"]) /\
  battery_read_func 1%nat 0x0E None 0 operating = None.
Proof.
  destruct (battery_read_func_needs_a_byte 1%nat 0 (Some [0x64]) 1 operating)
    as (_ & Hbyte & _).
  destruct (battery_read_func_needs_a_byte 1%nat 0x0E None 0 operating)
    as (_ & _ & Hnull & _).
  split; [apply (Hbyte 0x64 []); reflexivity | exact Hnull].
Defined.

(** ** Control loop *)

Ltac split_ifs :=
  repeat (match goal with
          | |- context [if ?b then _ else _] => destruct b eqn:?
          | H : context [if ?b then _ else _] |- _ => destruct b eqn:?
          end; cbn in *).





Lemma main_cycle_recovery c s :
  sem_count (while_scanning c s) sem_connected = true ->
  discovery_fails c s ->
  exists s' conn,
    main_cycle c s =
      Some (if nonzero (rc_bt_conn_disconnect (host c)) then Return 0 else Next,
            s',
            recovery_prefix c s
            ++ call_bt_conn_disconnect conn BT_HCI_ERR_REMOTE_USER_TERM_CONN
               :: (if nonzero (rc_bt_conn_disconnect (host c))
                   then [call_printk "Failed to disconnect (err %d)\n"]
                   else [call_k_sem_take sem_disconnected (K_SECONDS 30);
                         call_printk "Disconnected. Going back to scanning again...\n"])).
Proof.
  unfold discovery_fails, at_discovery, recovery_prefix.
  unfold main_cycle, main_recover, wait, k_sem_take, start_scan,
    bt_le_scan_start, bt_gatt_discover, bt_conn_disconnect.
  run. intros Hconnected Hfails.
  destruct (nonzero (rc_bt_le_scan_start (host c))); cbn;
    rewrite Hconnected; cbn;
    (destruct (nonzero (rc_bt_gatt_discover (host c))) eqn:Hrc; cbn;
     [ split_ifs; eexists; eexists; reflexivity
     | apply nonzero_false in Hrc;
       destruct Hfails as [Hfails|Hfails]; [congruence|];
       rewrite Hfails; cbn;
       split_ifs; eexists; eexists; reflexivity ]).
Qed.






(** ** Disconnects and the control loop *)


Lemma disconnected_active conn reason s :
  default_conn s = Some conn ->
  disconnected conn reason s =
    Some (tt, set_sem sem_disconnected true (set_default_conn None s),
          [call_printk "Disconnected: %s, reason 0x%02x %s\n";
           call_bt_conn_unref (Some conn);
           call_k_sem_give sem_disconnected]).
Proof.
  intros H. unfold disconnected, bt_conn_unref. run.
  rewrite H. cbn. rewrite Nat.eqb_refl. reflexivity.
Qed.




(** ** More on the advertisement filter *)

Lemma store_length {A} (arr : list A) i v :
  List.length (store arr i v) = List.length arr.
Proof.
  revert i. induction arr as [|h t IH]; intros [|i]; cbn; auto.
Qed.

Lemma cstring_terminated l rest : 
  cstring (l ++ NUL :: rest) = cstring l.
Proof.
  induction l as [|c l IH]; cbn; [reflexivity|].
  destruct (Ascii.eqb c NUL); [reflexivity | now rewrite IH].
Qed.

Lemma store_at_end {A} (l : list A) x rest v :
  store (l ++ x :: rest) (List.length l) v = l ++ v :: rest.
Proof.
  induction l as [|h t IH]; cbn; [reflexivity | now rewrite IH].
Qed.

(** What [data_cb] leaves in a zeroed or used buffer of [NAME_LEN]
    characters for a name field: the first [len] bytes of the field,
    then NUL. *)
Lemma data_cb_name d adv :
  List.length (name adv) = Z.to_nat NAME_LEN ->
  is_name_field d = true ->
  exists rest,
    data_cb d adv =
      (false,
       {| length := Z.min (data_len d) (NAME_LEN - 1);
          name := firstn (Z.to_nat (NAME_LEN - 1)) (data d) ++ NUL :: rest |}) /\
    List.length (firstn (Z.to_nat (NAME_LEN - 1)) (data d) ++ NUL :: rest) =
      Z.to_nat NAME_LEN.
Proof.
  intros Hbuf Hname. unfold data_cb. unfold is_name_field in Hname.
  rewrite Hname. unfold data_len, memcpy.
  set (n := List.length (data d)).
  assert (Hu8 : u8 (Z.min (Z.of_nat n) (NAME_LEN - 1)) =
                Z.min (Z.of_nat n) (NAME_LEN - 1)).
  { unfold u8, wrap, NAME_LEN. apply Z.mod_small. lia. }
  rewrite Hu8.
  assert (Hn : Z.to_nat (Z.min (Z.of_nat n) (NAME_LEN - 1)) =
               Nat.min n (Z.to_nat (NAME_LEN - 1))).
  { unfold NAME_LEN. lia. }
  rewrite Hn.
  assert (Hfirst : firstn (Nat.min n (Z.to_nat (NAME_LEN - 1))) (data d) =
                   firstn (Z.to_nat (NAME_LEN - 1)) (data d)).
  { destruct (Nat.le_ge_cases n (Z.to_nat (NAME_LEN - 1))) as [Hle|Hge].
    - rewrite Nat.min_l by exact Hle.
      rewrite !firstn_all2; [reflexivity | exact Hle | reflexivity].
    - now rewrite Nat.min_r by exact Hge. }
  rewrite Hfirst.
  assert (Hlen : List.length (firstn (Z.to_nat (NAME_LEN - 1)) (data d)) =
                 Nat.min n (Z.to_nat (NAME_LEN - 1))).
  { rewrite length_firstn. fold n. lia. }
  destruct (skipn (Nat.min n (Z.to_nat (NAME_LEN - 1))) (name adv))
    as [|x rest] eqn:Hskip.
  { apply (f_equal (@List.length ascii)) in Hskip.
    rewrite length_skipn, Hbuf in Hskip. unfold NAME_LEN in Hskip.
    cbn [List.length] in Hskip. lia. }
  exists rest. split.
  { rewrite <- Hlen. rewrite store_at_end. reflexivity. }
  apply (f_equal (@List.length ascii)) in Hskip.
  rewrite length_skipn, Hbuf in Hskip. cbn [List.length] in Hskip.
  rewrite length_app, Hlen. cbn [List.length]. unfold NAME_LEN in *. lia.
Qed.

(** X1.  [data_cb] on a buffer of [NAME_LEN] characters: a name field
    stops the parse and leaves [length] = min(field length, 29), the
    first [length] bytes of the field at the start of [name], a NUL right
    after them, and the buffer at its size; any other field is skipped
    and leaves the structure alone. *)
Theorem data_cb_bounds d adv :
  List.length (name adv) = Z.to_nat NAME_LEN ->
  (is_name_field d = true ->
   fst (data_cb d adv) = false /\
   length (snd (data_cb d adv)) = Z.min (data_len d) (NAME_LEN - 1) /\
   0 <= length (snd (data_cb d adv)) <= NAME_LEN - 1 /\
   List.length (name (snd (data_cb d adv))) = Z.to_nat NAME_LEN /\
   nth (Z.to_nat (length (snd (data_cb d adv)))) (name (snd (data_cb d adv)))
     "x"%char = NUL /\
   firstn (Z.to_nat (length (snd (data_cb d adv)))) (name (snd (data_cb d adv))) =
     firstn (Z.to_nat (length (snd (data_cb d adv)))) (data d)) /\
  (is_name_field d = false -> data_cb d adv = (true, adv)).
Proof.
  intros Hbuf. split.
  - intros Hname.
    destruct (data_cb_name d adv Hbuf Hname) as (rest & -> & Hsize).
    cbn [fst snd length name].
    set (l := firstn (Z.to_nat (NAME_LEN - 1)) (data d)) in *.
    assert (Hl : Z.to_nat (Z.min (data_len d) (NAME_LEN - 1)) = List.length l).
    { unfold l, data_len, NAME_LEN. rewrite length_firstn. lia. }
    rewrite Hl.
    repeat split; try (unfold data_len, NAME_LEN; lia); try exact Hsize;
      try apply nth_middle.
    rewrite firstn_app, Nat.sub_diag, firstn_all. cbn [firstn].
    rewrite app_nil_r. unfold l. rewrite length_firstn.
    change (Z.to_nat (NAME_LEN - 1)) with 29%nat.
    destruct (Nat.le_ge_cases 29 (List.length (data d))) as [Hle|Hge].
    + now rewrite Nat.min_l by exact Hle.
    + rewrite Nat.min_r by exact Hge.
      rewrite firstn_all. now apply firstn_all2.
  - intros Hother. unfold data_cb. unfold is_name_field in Hother.
    now rewrite Hother.
Qed.

Lemma data_cb_bounds_witness :
  data_cb {| type := BT_DATA_NAME_COMPLETE;
             data := list_ascii_of_string "A name of more than twenty-nine characters" |}
    zero_adv_data =
    (false,
     {| length := 29;
        name := list_ascii_of_string "A name of more than twenty-ni" ++ [NUL] |}) /\
  length (snd (data_cb {| type := BT_DATA_NAME_COMPLETE;
             data := list_ascii_of_string "A name of more than twenty-nine characters" |}
    zero_adv_data)) = Z.min 42 (NAME_LEN - 1) /\
  data_cb {| type := 0x01; data := ["006"%char] |} zero_adv_data =
    (true, zero_adv_data).
Proof.
  destruct (data_cb_bounds
              {| type := BT_DATA_NAME_COMPLETE;
                 data := list_ascii_of_string "A name of more than twenty-nine characters" |}
              zero_adv_data) as [Hname _]; [reflexivity|].
  destruct (data_cb_bounds {| type := 0x01; data := ["006"%char] |} zero_adv_data)
    as [_ Hother]; [reflexivity|].
  destruct Hname as (_ & Hlen & _); [reflexivity|].
  split; [reflexivity|]. split; [exact Hlen|]. apply Hother. reflexivity.
Defined.

Lemma is_prefix_cstring t :
  Forall (fun c => c <> NUL) t ->
  forall l, is_prefix t (cstring l) = true <-> firstn (List.length t) l = t.
Proof.
  induction 1 as [|a t Ha Ht IH]; intros l.
  - cbn. tauto.
  - destruct l as [|b l']; cbn [cstring is_prefix List.length firstn].
    + split; discriminate.
    + destruct (Ascii.eqb b NUL) eqn:Eb.
      * apply Ascii.eqb_eq in Eb. subst b. cbn [is_prefix].
        split; [discriminate|]. intros E. inversion E. congruence.
      * cbn [is_prefix]. rewrite andb_true_iff, Ascii.eqb_eq, IH.
        split.
        -- intros [-> ->]. reflexivity.
        -- intros E. inversion E. subst. rewrite H1. tauto.
Qed.

(** The name extracted from a payload is what the first name field
    holds, cut at 29 bytes and at its first NUL. *)
Lemma extracted_name_first_field ad :
  extracted_name ad =
  match find is_name_field ad with
  | Some d => cstring (firstn (Z.to_nat (NAME_LEN - 1)) (data d))
  | None => []
  end.
Proof.
  unfold extracted_name. rewrite bt_data_parse_data_cb.
  destruct (find is_name_field ad) as [d|] eqn:Hfind; [|reflexivity].
  apply find_some in Hfind. destruct Hfind as [_ Hname].
  destruct (data_cb_name d zero_adv_data) as (rest & -> & _);
    [reflexivity | exact Hname |].
  cbn [snd name]. apply cstring_terminated.
Qed.

(** X2.  The filter's verdict read off the payload: the four conditions
    hold exactly when the report is connectable or a scan response, no
    connection is held, and the first name field of the payload (of
    either kind; later ones are not looked at) starts with the 18 bytes
    of the target name. *)
Theorem match_conditions_first_name_field s type ad :
  match_conditions s type ad <->
  connectable_or_scan_rsp type = true /\
  default_conn s = None /\
  exists d,
    find is_name_field ad = Some d /\
    firstn 18 (data d) = target_name.
Proof.
  unfold match_conditions.
  rewrite extracted_name_first_field, name_field_present_find.
  assert (Hnul : Forall (fun c => c <> NUL) target_name)
    by (repeat constructor; discriminate).
  destruct (find is_name_field ad) as [d|].
  - rewrite (is_prefix_cstring _ Hnul), firstn_firstn.
    change (Nat.min (List.length target_name) (Z.to_nat (NAME_LEN - 1))) with 18%nat.
    split.
    + intros (_ & Hk & Hc & Hp). repeat split; eauto.
    + intros (Hk & Hc & d' & Hd & Hp). inversion Hd; subst. repeat split; eauto.
  - split.
    + intros ([d Hd] & _). discriminate.
    + intros (_ & _ & d & Hd & _). discriminate.
Qed.

(** On a match [device_found] goes on to its connect sequence. *)
Lemma device_found_on_match st addr rssi type ad s :
  match_conditions s type ad ->
  device_found st addr rssi type ad s =
    (printk "Device found [%s]: %s with name [%d]: |%s| (RSSI %d)\n";;
     rc <- bt_le_scan_stop st;;
     if nonzero rc then ret tt
     else
       err <- bt_conn_le_create st addr;;
       if nonzero err
       then printk "Create conn to %s failed (%d)\n";; start_scan st
       else ret tt) s.
Proof.
  intros (_ & Hkind & Hconn & Hprefix).
  unfold device_found, connectable_or_scan_rsp in *.
  pose proof (empty_name ad) as Hempty.
  pose proof (PERIPHERAL_NAME_match
                (name (bt_data_parse ad data_cb zero_adv_data))) as Hcmp.
  fold (extracted_name ad) in Hcmp.
  apply Hcmp in Hprefix. clear Hcmp.
  remember (bt_data_parse ad data_cb zero_adv_data) as parsed.
  unfold bind at 1, get. rewrite Hconn. cbn [conn_eqb negb].
  replace (negb (type =? BT_GAP_ADV_TYPE_ADV_IND) &&
           negb (type =? BT_GAP_ADV_TYPE_SCAN_RSP)) with false
    by (rewrite <- negb_orb, Hkind; reflexivity).
  destruct (length parsed =? 0) eqn:Hlen.
  { apply Z.eqb_eq in Hlen. specialize (Hempty Hlen).
    assert (Hno : is_prefix target_name (extracted_name ad) = false)
      by (rewrite Hempty; reflexivity).
    apply PERIPHERAL_NAME_match in Hprefix.
    unfold extracted_name in Hno. rewrite <- Heqparsed in Hno. congruence. }
  rewrite Hprefix. cbn [Z.eqb].
  destruct ((printk "Device found [%s]: %s with name [%d]: |%s| (RSSI %d)\n";;
     rc <- bt_le_scan_stop st;;
     (if nonzero rc
      then ret tt
      else
       err <- bt_conn_le_create st addr;;
       (if nonzero err
        then printk "Create conn to %s failed (%d)\n";; start_scan st
        else ret tt))) s) as [[[u s'] o]|]; reflexivity.
Qed.

(** X3.  A match that the host accepts leaves the new connection in
    [default_conn] and nothing else changed, with the requests stop-scan
    and connect in that order; from then on every advertisement, the
    bulb's included, is dropped without a request. *)
Theorem device_found_holds_one_connection st addr rssi type ad s :
  match_conditions s type ad ->
  rc_bt_le_scan_stop st = 0 ->
  rc_bt_conn_le_create st = 0 ->
  device_found st addr rssi type ad s =
    Some (tt, set_default_conn (Some (new_conn st)) s,
          [call_printk "Device found [%s]: %s with name [%d]: |%s| (RSSI %d)\n";
           call_bt_le_scan_stop;
           call_bt_conn_le_create addr]) /\
  forall st' addr' rssi' type' ad',
    device_found st' addr' rssi' type' ad'
      (set_default_conn (Some (new_conn st)) s) =
    Some (tt, set_default_conn (Some (new_conn st)) s, []).
Proof.
  intros Hmatch Hstop Hcreate. split.
  - rewrite (device_found_on_match _ _ _ _ _ _ Hmatch).
    unfold bt_le_scan_stop, bt_conn_le_create. run.
    rewrite Hstop, Hcreate. reflexivity.
  - intros. reflexivity.
Qed.

Lemma device_found_holds_one_connection_witness :
  device_found host_ok 7 (-40) BT_GAP_ADV_TYPE_ADV_IND bulb_advertisement app_init =
    Some (tt, connecting,
          [call_printk "Device found [%s]: %s with name [%d]: |%s| (RSSI %d)\n";
           call_bt_le_scan_stop;
           call_bt_conn_le_create 7]) /\
  device_found host_ok 8 (-50) BT_GAP_ADV_TYPE_SCAN_RSP bulb_advertisement
    connecting = Some (tt, connecting, []).
Proof.
  destruct (device_found_holds_one_connection host_ok 7 (-40)
              BT_GAP_ADV_TYPE_ADV_IND bulb_advertisement app_init)
    as [Hfirst Hlater].
  - repeat split; reflexivity.
  - reflexivity.
  - reflexivity.
  - split; [exact Hfirst|].
    apply (Hlater host_ok 8 (-50) BT_GAP_ADV_TYPE_SCAN_RSP bulb_advertisement).
Defined.

(** X4.  A match whose connect request the host rejects changes no
    global and starts the scan again: stop-scan, connect, scan-start, in
    that order, with the failure logged. *)
Theorem device_found_rescans_on_create_failure st addr rssi type ad s :
  match_conditions s type ad ->
  rc_bt_le_scan_stop st = 0 ->
  rc_bt_conn_le_create st <> 0 ->
  exists line,
    device_found st addr rssi type ad s =
      Some (tt, s,
            [call_printk "Device found [%s]: %s with name [%d]: |%s| (RSSI %d)\n";
             call_bt_le_scan_stop;
             call_bt_conn_le_create addr;
             call_printk "Create conn to %s failed (%d)\n";
             call_bt_le_scan_start;
             call_printk line]).
Proof.
  intros Hmatch Hstop Hcreate.
  rewrite (device_found_on_match _ _ _ _ _ _ Hmatch).
  unfold bt_le_scan_stop, bt_conn_le_create, start_scan, bt_le_scan_start. run.
  rewrite Hstop. cbn.
  apply Z.eqb_neq in Hcreate. rewrite Hcreate. cbn.
  unfold nonzero. rewrite Hcreate. cbn.
  destruct (rc_bt_le_scan_start st =? 0); cbn; eexists; reflexivity.
Qed.

Lemma device_found_rescans_on_create_failure_witness :
  exists line,
    device_found host_no_connect 7 (-40) BT_GAP_ADV_TYPE_ADV_IND
      bulb_advertisement app_init =
      Some (tt, app_init,
            [call_printk "Device found [%s]: %s with name [%d]: |%s| (RSSI %d)\n";
             call_bt_le_scan_stop;
             call_bt_conn_le_create 7;
             call_printk "Create conn to %s failed (%d)\n";
             call_bt_le_scan_start;
             call_printk line]).
Proof.
  apply (device_found_rescans_on_create_failure host_no_connect).
  - repeat split; reflexivity.
  - reflexivity.
  - discriminate.
Defined.

Lemma device_found_match_prefix st addr rssi type ad s :
  match_conditions s type ad ->
  exists s' rest,
    device_found st addr rssi type ad s =
      Some (tt, s',
            [call_printk "Device found [%s]: %s with name [%d]: |%s| (RSSI %d)\n";
             call_bt_le_scan_stop] ++ rest).
Proof.
  intros Hmatch. rewrite (device_found_on_match _ _ _ _ _ _ Hmatch).
  unfold bt_le_scan_stop, bt_conn_le_create, start_scan, bt_le_scan_start. run.
  split_ifs; eexists; eexists; reflexivity.
Qed.

Lemma deliver_two st1 e1 st2 e2 s s1 o1 s2 o2 :
  dispatch st1 e1 s = Some (tt, s1, o1) ->
  dispatch st2 e2 s1 = Some (tt, s2, o2) ->
  deliver [(st1, e1); (st2, e2)] s = Some (tt, s2, o1 ++ o2).
Proof.
  intros H1 H2. cbn [deliver]. unfold bind, ret. rewrite H1, H2.
  now rewrite app_nil_r.
Qed.

(** ** More on the connection lifecycle *)

(** X5.  A failed connection attempt, whichever connection it is
    reported for, drops the reference held in [default_conn], clears it,
    and asks for the scan again, touching nothing else; the next
    advertisement that passes the filter is then answered with a
    stop-scan request as at the start. *)
Theorem connected_failure_retries st conn err s :
  err <> 0 ->
  exists line,
    connected st conn err s =
      Some (tt, set_default_conn None s,
            [call_printk "Failed to connect to %s %u %s\n";
             call_bt_conn_unref (default_conn s);
             call_bt_le_scan_start;
             call_printk line]) /\
    forall st' addr rssi type ad,
      match_conditions (set_default_conn None s) type ad ->
      exists s' rest,
        deliver [(st, on_connected conn err);
                 (st', on_device_found addr rssi type ad)] s =
          Some (tt, s',
                [call_printk "Failed to connect to %s %u %s\n";
                 call_bt_conn_unref (default_conn s);
                 call_bt_le_scan_start;
                 call_printk line;
                 call_printk "Device found [%s]: %s with name [%d]: |%s| (RSSI %d)\n";
                 call_bt_le_scan_stop] ++ rest).
Proof.
  intros Herr.
  assert (Hrun : exists line,
    connected st conn err s =
      Some (tt, set_default_conn None s,
            [call_printk "Failed to connect to %s %u %s\n";
             call_bt_conn_unref (default_conn s);
             call_bt_le_scan_start;
             call_printk line])).
  { unfold connected, start_scan, bt_le_scan_start, bt_conn_unref.
    rewrite (proj2 (nonzero_true _) Herr). run.
    destruct (nonzero (rc_bt_le_scan_start st)); eexists; reflexivity. }
  destruct Hrun as (line & Hrun). exists line. split; [exact Hrun|].
  intros st' addr rssi type ad Hmatch.
  destruct (device_found_match_prefix st' addr rssi type ad _ Hmatch)
    as (s' & rest & Hfound).
  exists s', rest.
  apply (deliver_two st (on_connected conn err) st'
           (on_device_found addr rssi type ad) _ _ _ _ _ Hrun Hfound).
Qed.

Lemma connected_failure_retries_witness :
  exists line s' rest,
    deliver [(host_ok, on_connected 1%nat 0x3E);
             (host_ok, on_device_found 7 (-40) BT_GAP_ADV_TYPE_ADV_IND
                         bulb_advertisement)] connecting =
      Some (tt, s',
            [call_printk "Failed to connect to %s %u %s\n";
             call_bt_conn_unref (Some 1%nat);
             call_bt_le_scan_start;
             call_printk line;
             call_printk "Device found [%s]: %s with name [%d]: |%s| (RSSI %d)\n";
             call_bt_le_scan_stop] ++ rest).
Proof.
  destruct (connected_failure_retries host_ok 1%nat 0x3E connecting)
    as (line & _ & Hnext); [discriminate|].
  exists line.
  apply (Hnext host_ok 7 (-40) BT_GAP_ADV_TYPE_ADV_IND bulb_advertisement).
  repeat split; reflexivity.
Defined.

(** X6.  After the active connection has disconnected, the next
    advertisement that passes the filter is answered with a stop-scan
    request again: the filter's "no connection" condition holds as soon
    as [disconnected] has run. *)
Theorem disconnected_reopens_filter conn reason st addr rssi type ad s :
  default_conn s = Some conn ->
  match_conditions (set_default_conn None s) type ad ->
  exists s' rest,
    deliver [(st, on_disconnected conn reason);
             (st, on_device_found addr rssi type ad)] s =
      Some (tt, s',
            [call_printk "Disconnected: %s, reason 0x%02x %s\n";
             call_bt_conn_unref (Some conn);
             call_k_sem_give sem_disconnected;
             call_printk "Device found [%s]: %s with name [%d]: |%s| (RSSI %d)\n";
             call_bt_le_scan_stop] ++ rest).
Proof.
  intros Hconn (Hname & Hkind & _ & Hprefix).
  assert (Hrun : disconnected conn reason s =
    Some (tt, set_sem sem_disconnected true (set_default_conn None s),
          [call_printk "Disconnected: %s, reason 0x%02x %s\n";
           call_bt_conn_unref (Some conn);
           call_k_sem_give sem_disconnected])).
  { unfold disconnected, bt_conn_unref. run.
    rewrite Hconn. cbn. rewrite Nat.eqb_refl. reflexivity. }
  destruct (device_found_match_prefix st addr rssi type ad
              (set_sem sem_disconnected true (set_default_conn None s)))
    as (s' & rest & Hfound).
  { repeat split; assumption. }
  exists s', rest.
  apply (deliver_two st (on_disconnected conn reason) st
           (on_device_found addr rssi type ad) _ _ _ _ _ Hrun Hfound).
Qed.

Lemma disconnected_reopens_filter_witness :
  exists s' rest,
    deliver [(host_ok, on_disconnected 1%nat 0x08);
             (host_ok, on_device_found 7 (-40) BT_GAP_ADV_TYPE_ADV_IND
                         bulb_advertisement)] operating =
      Some (tt, s',
            [call_printk "Disconnected: %s, reason 0x%02x %s\n";
             call_bt_conn_unref (Some 1%nat);
             call_k_sem_give sem_disconnected;
             call_printk "Device found [%s]: %s with name [%d]: |%s| (RSSI %d)\n";
             call_bt_le_scan_stop] ++ rest).
Proof.
  apply (disconnected_reopens_filter 1%nat 0x08 host_ok).
  - reflexivity.
  - repeat split; reflexivity.
Defined.

(** ** More on GATT discovery *)

(** The three callbacks of a discovery that finds everything, run from
    a session looking for the color UUID. *)
Lemma discover_three_run st1 st2 st3 conn a1 a2 a3 s :
  resolving BT_UUID_COLOR_SETTING s ->
  exists out,
    discover_three st1 st2 st3 conn a1 a2 a3 s =
      Some (tt,
            set_sem sem_discovered true
              (set_subscribe_params
                 {| notify := Some cb_notify_func; value := BT_GATT_CCC_NOTIFY;
                    value_handle := bt_gatt_attr_value_handle st2 a2;
                    ccc_handle := handle a3 |}
                 (set_discover_params
                    {| uuid := Some addr_discover_uuid;
                       func := func (discover_params s);
                       start_handle := u16 (handle a2 + 2);
                       end_handle := end_handle (discover_params s);
                       dtype := BT_GATT_DISCOVER_DESCRIPTOR |}
                    (set_discover_uuid BT_UUID_GATT_CCC
                       (set_battery_level_value_handle
                          (bt_gatt_attr_value_handle st2 a2)
                          (set_color_attr_handle
                             (bt_gatt_attr_value_handle st1 a1) s))))),
            out) /\
    requests out =
      [call_bt_gatt_discover (Some conn)
         {| uuid := Some addr_discover_uuid; func := func (discover_params s);
            start_handle := u16 (handle a1 + 1);
            end_handle := end_handle (discover_params s);
            dtype := BT_GATT_DISCOVER_CHARACTERISTIC |}
         BT_UUID_BAS_BATTERY_LEVEL;
       call_bt_gatt_discover (Some conn)
         {| uuid := Some addr_discover_uuid; func := func (discover_params s);
            start_handle := u16 (handle a2 + 2);
            end_handle := end_handle (discover_params s);
            dtype := BT_GATT_DISCOVER_DESCRIPTOR |}
         BT_UUID_GATT_CCC;
       call_bt_gatt_subscribe (Some conn)
         {| notify := Some cb_notify_func; value := BT_GATT_CCC_NOTIFY;
            value_handle := bt_gatt_attr_value_handle st2 a2;
            ccc_handle := handle a3 |}].
Proof.
  intros [Hptr Huuid].
  unfold discover_three, deliver, dispatch, discover_func, bt_gatt_discover,
    bt_gatt_subscribe, nonzero.
  run. rewrite Hptr, Huuid. cbn.
  destruct (rc_bt_gatt_discover st1 =? 0); cbn;
    destruct (rc_bt_gatt_discover st2 =? 0); cbn;
    destruct (rc_bt_gatt_subscribe st3 =? 0); cbn;
    try (match goal with
         | |- context [rc_bt_gatt_subscribe st3 =? ?e] =>
             destruct (rc_bt_gatt_subscribe st3 =? e)
         end; cbn);
    eexists; split; reflexivity.
Qed.

(** X7.  A discovery that finds the color characteristic, then the
    Battery Level characteristic, then a CCCD ends with both value
    handles stored, the subscription block filled in with the battery
    value handle and the CCCD handle, and [sem_discovered] given; on the
    way it makes exactly three requests, in this order: a characteristic
    discovery from the handle after the first match, a descriptor
    discovery from two handles after the second, and the subscription.
    The connection and the color index are not touched. *)
Theorem discover_three_resolves st1 st2 st3 conn a1 a2 a3 s :
  resolving BT_UUID_COLOR_SETTING s ->
  exists s' out,
    discover_three st1 st2 st3 conn a1 a2 a3 s = Some (tt, s', out) /\
    color_attr_handle s' = bt_gatt_attr_value_handle st1 a1 /\
    battery_level_value_handle s' = bt_gatt_attr_value_handle st2 a2 /\
    subscribe_params s' =
      {| notify := Some cb_notify_func; value := BT_GATT_CCC_NOTIFY;
         value_handle := bt_gatt_attr_value_handle st2 a2;
         ccc_handle := handle a3 |} /\
    sem_count s' sem_discovered = true /\
    default_conn s' = default_conn s /\
    current_color_index s' = current_color_index s /\
    requests out =
      [call_bt_gatt_discover (Some conn)
         {| uuid := Some addr_discover_uuid; func := func (discover_params s);
            start_handle := u16 (handle a1 + 1);
            end_handle := end_handle (discover_params s);
            dtype := BT_GATT_DISCOVER_CHARACTERISTIC |}
         BT_UUID_BAS_BATTERY_LEVEL;
       call_bt_gatt_discover (Some conn)
         {| uuid := Some addr_discover_uuid; func := func (discover_params s);
            start_handle := u16 (handle a2 + 2);
            end_handle := end_handle (discover_params s);
            dtype := BT_GATT_DISCOVER_DESCRIPTOR |}
         BT_UUID_GATT_CCC;
       call_bt_gatt_subscribe (Some conn)
         {| notify := Some cb_notify_func; value := BT_GATT_CCC_NOTIFY;
            value_handle := bt_gatt_attr_value_handle st2 a2;
            ccc_handle := handle a3 |}].
Proof.
  intros Hphase.
  destruct (discover_three_run st1 st2 st3 conn a1 a2 a3 s Hphase)
    as (out & Hrun & Hreq).
  eexists. exists out. split; [exact Hrun|].
  repeat split. exact Hreq.
Qed.

Lemma discover_three_resolves_witness :
  exists s' out,
    discover_three host_ok host_failing host_ok 1%nat
      {| handle := 0x0010; user_data := 0 |}
      {| handle := 0x0013; user_data := 0 |}
      {| handle := 0x0015; user_data := 0 |} discovery_started =
      Some (tt, s', out) /\
    color_attr_handle s' = 0x0011 /\
    battery_level_value_handle s' = 0x0014 /\
    sem_count s' sem_discovered = true.
Proof.
  destruct (discover_three_resolves host_ok host_failing host_ok 1%nat
              {| handle := 0x0010; user_data := 0 |}
              {| handle := 0x0013; user_data := 0 |}
              {| handle := 0x0015; user_data := 0 |} discovery_started)
    as (s' & out & Hrun & Hcolor & Hbattery & _ & Hsem & _).
  - split; reflexivity.
  - exists s', out. rewrite Hcolor, Hbattery in *.
    repeat split; try assumption; reflexivity.
Defined.

(** X8.  Once discovery has resolved everything, the color button
    writes to the value handle found for the color characteristic and
    the battery button reads the value handle found for Battery Level,
    both on whatever [default_conn] holds; these are the only two
    requests the two presses make. *)
Theorem buttons_use_discovered_handles st1 st2 st3 conn a1 a2 a3 st s :
  resolving BT_UUID_COLOR_SETTING s ->
  exists s3 o3 s' o' entry,
    discover_three st1 st2 st3 conn a1 a2 a3 s = Some (tt, s3, o3) /\
    (button_state_changed st BUTTON_COLOR BUTTON_COLOR;;
     button_state_changed st BUTTON_BATTERY_LEVEL BUTTON_BATTERY_LEVEL) s3 =
      Some (tt, s', o') /\
    nth_error color_array (Z.to_nat ((current_color_index s + 1) mod 4)) =
      Some entry /\
    requests o' =
      [call_bt_gatt_write_without_response (default_conn s)
         (bt_gatt_attr_value_handle st1 a1) (color_value entry) 4 false;
       call_bt_gatt_read (default_conn s)
         {| read_func := Some cb_battery_read_func; handle_count := 1;
            single_handle := bt_gatt_attr_value_handle st2 a2;
            single_offset := 0 |}].
Proof.
  intros Hphase.
  destruct (discover_three_run st1 st2 st3 conn a1 a2 a3 s Hphase)
    as (o3 & Hrun & _).
  match type of Hrun with _ = Some (_, ?x, _) => set (s3 := x) in * end.
  destruct (rotate_color_once st s3) as (entry & line & Hnth & Hcolor).
  assert (Hbattery : exists o,
    button_state_changed st BUTTON_BATTERY_LEVEL BUTTON_BATTERY_LEVEL
      (set_current_color_index ((current_color_index s3 + 1) mod 4) s3) =
      Some (tt,
            set_read_params
              {| read_func := Some cb_battery_read_func; handle_count := 1;
                 single_handle := bt_gatt_attr_value_handle st2 a2;
                 single_offset := 0 |}
              (set_current_color_index ((current_color_index s3 + 1) mod 4) s3),
            o) /\
    requests o =
      [call_bt_gatt_read (default_conn s)
         {| read_func := Some cb_battery_read_func; handle_count := 1;
            single_handle := bt_gatt_attr_value_handle st2 a2;
            single_offset := 0 |}]).
  { unfold button_state_changed, read_battery_level, bt_gatt_read. run.
    destruct (nonzero (rc_bt_gatt_read st)); eexists; split; reflexivity. }
  destruct Hbattery as (o & Hbattery & Hreq).
  exists s3, o3. eexists. eexists. exists entry.
  split; [exact Hrun|]. split.
  { eapply bind_some; [exact Hcolor | exact Hbattery]. }
  split; [exact Hnth|].
  unfold requests in *. rewrite filter_app, Hreq. reflexivity.
Qed.

Lemma buttons_use_discovered_handles_witness :
  exists s3 o3 s' o',
    discover_three host_ok host_ok host_ok 1%nat
      {| handle := 0x0010; user_data := 0 |}
      {| handle := 0x0013; user_data := 0 |}
      {| handle := 0x0015; user_data := 0 |} discovery_started =
      Some (tt, s3, o3) /\
    (button_state_changed host_ok BUTTON_COLOR BUTTON_COLOR;;
     button_state_changed host_ok BUTTON_BATTERY_LEVEL BUTTON_BATTERY_LEVEL) s3 =
      Some (tt, s', o') /\
    requests o' =
      [call_bt_gatt_write_without_response (Some 1%nat) 0x0011 COLOR_RED 4 false;
       call_bt_gatt_read (Some 1%nat)
         {| read_func := Some cb_battery_read_func; handle_count := 1;
            single_handle := 0x0014; single_offset := 0 |}].
Proof.
  destruct (buttons_use_discovered_handles host_ok host_ok host_ok 1%nat
              {| handle := 0x0010; user_data := 0 |}
              {| handle := 0x0013; user_data := 0 |}
              {| handle := 0x0015; user_data := 0 |} host_ok discovery_started)
    as (s3 & o3 & s' & o' & entry & Hrun & Hbuttons & Hnth & Hreq).
  - split; reflexivity.
  - exists s3, o3, s', o'. split; [exact Hrun|]. split; [exact Hbuttons|].
    rewrite Hreq. cbn in Hnth. inversion Hnth. reflexivity.
Defined.

Lemma bt_uuid_cmp_eq u v : (bt_uuid_cmp u v =? 0) = true <-> u = v.
Proof.
  unfold bt_uuid_cmp. rewrite Z.eqb_eq. destruct u as [a], v as [b]. cbn.
  split; [intros H; f_equal; lia | intros H; inversion H; lia].
Qed.

Lemma resolving_iff u s :
  resolving u s <->
  (exists p, uuid (discover_params s) = Some p) /\
  (bt_uuid_cmp (discover_uuid s) u =? 0) = true.
Proof.
  unfold resolving. rewrite bt_uuid_cmp_eq. split.
  - intros [H1 H2]. eauto.
  - intros [[[] H1] H2]. auto.
Qed.

(** X9.  Whenever [discover_func] returns, it returns
    [BT_GATT_ITER_STOP]; it never changes [default_conn], the color
    index, [read_params] or any semaphore but [sem_discovered]; and it
    gives [sem_discovered] exactly when it is called with an attribute
    while the session is looking for the CCCD: an exhausted range, a
    color match or a battery match never signal. *)
Theorem discover_func_signals_only_on_cccd st conn attr s r s' out :
  discover_func st conn attr s = Some (r, s', out) ->
  r = BT_GATT_ITER_STOP /\
  default_conn s' = default_conn s /\
  current_color_index s' = current_color_index s /\
  read_params s' = read_params s /\
  (forall sem, sem <> sem_discovered -> sem_count s' sem = sem_count s sem) /\
  (In (call_k_sem_give sem_discovered) out <->
   (exists a, attr = Some a) /\ resolving BT_UUID_GATT_CCC s) /\
  (~ ((exists a, attr = Some a) /\ resolving BT_UUID_GATT_CCC s) ->
   sem_count s' sem_discovered = sem_count s sem_discovered).
Proof.
  rewrite resolving_iff.
  destruct attr as [a|].
  2:{ cbn. intros H. inversion H; subst. cbn.
      repeat split; try reflexivity;
        try (match goal with H : _ \/ _ |- _ => intuition discriminate end).
      intros ([a Ha] & _). discriminate. }
  unfold discover_func, bt_gatt_discover, bt_gatt_subscribe. run.
  destruct (uuid (discover_params s)) as [p|]; cbn; [|discriminate].
  destruct (bt_uuid_cmp (discover_uuid s) BT_UUID_COLOR_SETTING =? 0) eqn:Hc.
  { apply bt_uuid_cmp_eq in Hc. rewrite Hc. cbn.
    destruct (nonzero (rc_bt_gatt_discover st)); cbn;
      intros H; inversion H; subst; cbn;
      repeat split; try reflexivity;
      try (match goal with H : _ \/ _ |- _ => intuition discriminate end);
      intros (_ & _ & Hx); discriminate Hx. }
  destruct (bt_uuid_cmp (discover_uuid s) BT_UUID_BAS_BATTERY_LEVEL =? 0) eqn:Hb.
  { apply bt_uuid_cmp_eq in Hb. rewrite Hb. cbn.
    destruct (nonzero (rc_bt_gatt_discover st)); cbn;
      intros H; inversion H; subst; cbn;
      repeat split; try reflexivity;
      try (match goal with H : _ \/ _ |- _ => intuition discriminate end);
      intros (_ & _ & Hx); discriminate Hx. }
  destruct (bt_uuid_cmp (discover_uuid s) BT_UUID_GATT_CCC =? 0) eqn:Hd.
  - match goal with
    | |- context [if ?b then emit _ else emit _] => destruct b
    end; cbn;
      intros H; inversion H; subst; cbn;
      repeat split; try reflexivity; eauto;
      try (intros sem Hsem; destruct sem; try reflexivity; now elim Hsem);
      try tauto;
      try (intros Hno; exfalso; apply Hno; eauto).
  - cbn. intros H. inversion H; subst. cbn.
    repeat split; try reflexivity;
      try (match goal with H : _ \/ _ |- _ => intuition discriminate end);
      try (match goal with H : False |- _ => destruct H end);
      intros (_ & _ & Hx); discriminate Hx.
Qed.

Lemma discover_func_signals_only_on_cccd_witness :
  (exists s' out,
     discover_func host_ok 1%nat None color_found =
       Some (BT_GATT_ITER_STOP, s', out) /\
     sem_count s' sem_discovered = sem_count color_found sem_discovered) /\
  (exists s' out,
     discover_func host_ok 1%nat (Some {| handle := 0x0015; user_data := 0 |})
       battery_found = Some (BT_GATT_ITER_STOP, s', out) /\
     In (call_k_sem_give sem_discovered) out).
Proof.
  split.
  - eexists. eexists. split; [reflexivity|].
    refine (proj2 (proj2 (proj2 (proj2 (proj2 (proj2
      (discover_func_signals_only_on_cccd host_ok 1%nat None color_found
         _ _ _ eq_refl)))))) _).
    intros [[a Ha] _]. discriminate.
  - eexists. eexists. split; [reflexivity|].
    refine (proj2 (proj1 (proj2 (proj2 (proj2 (proj2 (proj2
      (discover_func_signals_only_on_cccd host_ok 1%nat
         (Some {| handle := 0x0015; user_data := 0 |}) battery_found
         _ _ _ eq_refl))))))) _).
    split; [eauto | split; reflexivity].
Defined.

(** X10.  Provided [sem_discovered] is not already given when [main]
    starts discovery (no signal is left over from an earlier
    connection), a discovery whose range is exhausted at once (the host
    reports no attribute for the color UUID) leaves the discovery block
    zeroed and gives no semaphore, so [main] sits out its 10 s wait and
    then asks for a disconnect, exactly as on a timeout; whether [main]
    goes round or returns depends on the host's answer to that request
    only. *)
Theorem exhausted_discovery_forces_disconnect c s st conn :
  sem_count (while_scanning c s) sem_connected = true ->
  sem_count (while_scanning c s) sem_discovered = false ->
  rc_bt_gatt_discover (host c) = 0 ->
  while_discovering c (at_discovery c s) =
    after (discover_func st conn None) (at_discovery c s) ->
  discover_params (while_discovering c (at_discovery c s)) = zero_discover_params /\
  exists s' conn',
    main_cycle c s =
      Some (if nonzero (rc_bt_conn_disconnect (host c)) then Return 0 else Next,
            s',
            [call_bt_le_scan_start;
             call_printk
               (if nonzero (rc_bt_le_scan_start (host c))
                then "Scanning failed to start (err %d)\n"
                else "Scanning successfully started\n ==> Will only be scanning devices with a NON-EMPTY device name <==\n");
             call_k_sem_take sem_connected K_FOREVER;
             call_bt_gatt_discover (default_conn (while_scanning c s))
               {| uuid := Some addr_discover_uuid; func := Some cb_discover_func;
                  start_handle := BT_ATT_FIRST_ATTRIBUTE_HANDLE;
                  end_handle := BT_ATT_LAST_ATTRIBUTE_HANDLE;
                  dtype := BT_GATT_DISCOVER_CHARACTERISTIC |}
               BT_UUID_COLOR_SETTING;
             call_printk "Discovery started\n";
             call_k_sem_take sem_discovered (K_SECONDS 10);
             call_printk "Timed out during GATT discovery\n";
             call_bt_conn_disconnect conn' BT_HCI_ERR_REMOTE_USER_TERM_CONN]
            ++ (if nonzero (rc_bt_conn_disconnect (host c))
                then [call_printk "Failed to disconnect (err %d)\n"]
                else [call_k_sem_take sem_disconnected (K_SECONDS 30);
                      call_printk "Disconnected. Going back to scanning again...\n"])).
Proof.
  intros Hconnected Hquiet Hrc Hwhile.
  split; [rewrite Hwhile; reflexivity|].
  assert (Hfails : discovery_fails c s).
  { right. rewrite Hwhile. cbn. exact Hquiet. }
  destruct (main_cycle_recovery c s Hconnected Hfails) as (s' & conn' & Hrun).
  exists s', conn'. rewrite Hrun. unfold recovery_prefix.
  rewrite (proj2 (nonzero_false _) Hrc). reflexivity.
Qed.

Lemma exhausted_discovery_forces_disconnect_witness :
  exists s' conn',
    main_cycle nothing_to_discover app_init =
      Some (Next, s',
            [call_bt_le_scan_start;
             call_printk "Scanning successfully started\n ==> Will only be scanning devices with a NON-EMPTY device name <==\n";
             call_k_sem_take sem_connected K_FOREVER;
             call_bt_gatt_discover (Some 1%nat)
               {| uuid := Some addr_discover_uuid; func := Some cb_discover_func;
                  start_handle := BT_ATT_FIRST_ATTRIBUTE_HANDLE;
                  end_handle := BT_ATT_LAST_ATTRIBUTE_HANDLE;
                  dtype := BT_GATT_DISCOVER_CHARACTERISTIC |}
               BT_UUID_COLOR_SETTING;
             call_printk "Discovery started\n";
             call_k_sem_take sem_discovered (K_SECONDS 10);
             call_printk "Timed out during GATT discovery\n";
             call_bt_conn_disconnect conn' BT_HCI_ERR_REMOTE_USER_TERM_CONN;
             call_k_sem_take sem_disconnected (K_SECONDS 30);
             call_printk "Disconnected. Going back to scanning again...\n"]).
Proof.
  destruct (exhausted_discovery_forces_disconnect nothing_to_discover app_init
              host_ok 1%nat) as (_ & s' & conn' & Hrun);
    try reflexivity.
  exists s', conn'. exact Hrun.
Defined.

(** ** More on the command dispatcher *)

Lemma nonzero_land_BIT x i :
  0 <= i -> nonzero (Z.land x (BIT i)) = Z.testbit x i.
Proof.
  intros Hi. unfold BIT.
  assert (Hbit : Z.testbit (Z.land x (Z.shiftl 1 i)) i = Z.testbit x i).
  { rewrite Z.land_spec, Z.shiftl_spec, Z.sub_diag by lia.
    cbn [Z.testbit]. apply andb_true_r. }
  destruct (Z.testbit x i) eqn:E.
  - apply nonzero_true. intros H0. rewrite H0, Z.bits_0 in Hbit. discriminate.
  - apply nonzero_false. apply Z.bits_inj'. intros n Hn.
    rewrite Z.bits_0, Z.land_spec, Z.shiftl_spec by lia.
    destruct (Z.eq_dec n i) as [->|Hne].
    + rewrite E. reflexivity.
    + replace (Z.testbit 1 (n - i)) with false; [apply andb_false_r|].
      destruct (Z.lt_ge_cases n i).
      * now rewrite Z.testbit_neg_r by lia.
      * symmetry. apply (Z.bits_above_log2 1 (n - i)); cbn; lia.
Qed.

(** A button's test is the conjunction of its bit in both arguments. *)
Lemma pressed_bits i button_state has_changed :
  0 <= i ->
  pressed (BIT i) button_state has_changed =
  Z.testbit has_changed i && Z.testbit button_state i.
Proof.
  intros Hi. unfold pressed. now rewrite !nonzero_land_BIT.
Qed.

(** X11.  A button event in which none of the four buttons is both
    changed and down (a release, a button held, bits of other buttons)
    does nothing: no global changes and nothing is sent or logged. *)
Theorem button_state_changed_ignores_releases st button_state has_changed s :
  (forall i, 0 <= i < 4 ->
     Z.testbit has_changed i && Z.testbit button_state i = false) ->
  button_state_changed st button_state has_changed s = Some (tt, s, []).
Proof.
  intros Hbits. unfold button_state_changed.
  change BUTTON_COLOR with (BIT 0).
  change BUTTON_BATTERY_LEVEL with (BIT 1).
  change BUTTON_CONN_PARAMS with (BIT 2).
  change BUTTON_DISCONNECT with (BIT 3).
  rewrite !pressed_bits by lia.
  rewrite !Hbits by lia. reflexivity.
Qed.

Lemma button_state_changed_ignores_releases_witness :
  button_state_changed host_ok 0 BUTTON_COLOR operating = Some (tt, operating, []) /\
  button_state_changed host_ok 0x0F 0 operating = Some (tt, operating, []) /\
  button_state_changed host_ok 0x30 0x30 operating = Some (tt, operating, []).
Proof.
  assert (Hbits : forall bs hc,
            Z.land (Z.land hc bs) 0x0F = 0 ->
            forall i, 0 <= i < 4 -> Z.testbit hc i && Z.testbit bs i = false).
  { intros bs hc H i Hi.
    assert (Hi' : Z.testbit (Z.land (Z.land hc bs) 0x0F) i = false)
      by (rewrite H; apply Z.bits_0).
    rewrite !Z.land_spec in Hi'.
    assert (Hm : Z.testbit 0x0F i = true).
    { assert (i = 0 \/ i = 1 \/ i = 2 \/ i = 3) as [->|[->|[->| ->]]] by lia;
        reflexivity. }
    rewrite Hm, andb_true_r in Hi'. exact Hi'. }
  split; [|split];
    apply button_state_changed_ignores_releases; apply Hbits; reflexivity.
Defined.

(** X12.  A button event acts as the single-button presses it contains,
    taken in the fixed order color, battery, connection parameters,
    disconnect: the globals, the requests and the log are those of the
    presses run one after the other (and it faults exactly if they do). *)
Theorem button_state_changed_sequences_presses st button_state has_changed s :
  button_state_changed st button_state has_changed s =
  (press st BUTTON_COLOR button_state has_changed;;
   press st BUTTON_BATTERY_LEVEL button_state has_changed;;
   press st BUTTON_CONN_PARAMS button_state has_changed;;
   press st BUTTON_DISCONNECT button_state has_changed) s.
Proof.
  unfold press, button_state_changed.
  unfold toggle_color, read_battery_level, bt_gatt_write_without_response,
    bt_gatt_read, bt_conn_get_info, bt_conn_le_param_update, bt_conn_disconnect.
  destruct (pressed BUTTON_COLOR button_state has_changed);
    destruct (pressed BUTTON_BATTERY_LEVEL button_state has_changed);
    destruct (pressed BUTTON_CONN_PARAMS button_state has_changed);
    destruct (pressed BUTTON_DISCONNECT button_state has_changed);
    run; rewrite ?u32_mod_4;
    try (destruct (mod_4_cases (current_color_index s + 1)) as [E|[E|[E|E]]];
         rewrite E; cbn);
    try (destruct (nonzero (rc_bt_gatt_write_without_response st)); cbn);
    try (destruct (nonzero (rc_bt_gatt_read st)); cbn);
    reflexivity.
Qed.

(** X13.  The color table is never indexed out of bounds by the button
    handler: [button_state_changed] runs to its end for every argument
    and every value of [current_color_index], leaves the index below 4
    when the color button is pressed and unchanged otherwise.
    [toggle_color] on its own reads inside the table exactly when the
    index is below [COLOR_COUNT]. *)
Theorem color_table_access_in_bounds :
  (forall st button_state has_changed s,
     exists s' out,
       button_state_changed st button_state has_changed s = Some (tt, s', out) /\
       (pressed BUTTON_COLOR button_state has_changed = true ->
        0 <= current_color_index s' < COLOR_COUNT) /\
       (pressed BUTTON_COLOR button_state has_changed = false ->
        current_color_index s' = current_color_index s)) /\
  (forall st s,
     0 <= current_color_index s ->
     ((exists r, toggle_color st s = Some r) <->
      current_color_index s < COLOR_COUNT)).
Proof.
  split.
  - intros st button_state has_changed s.
    unfold button_state_changed.
    unfold toggle_color, read_battery_level, bt_gatt_write_without_response,
      bt_gatt_read, bt_conn_get_info, bt_conn_le_param_update, bt_conn_disconnect.
    destruct (pressed BUTTON_COLOR button_state has_changed);
      destruct (pressed BUTTON_BATTERY_LEVEL button_state has_changed);
      destruct (pressed BUTTON_CONN_PARAMS button_state has_changed);
      destruct (pressed BUTTON_DISCONNECT button_state has_changed);
      run; rewrite ?u32_mod_4;
      try (destruct (mod_4_cases (current_color_index s + 1)) as [E|[E|[E|E]]];
           rewrite E; cbn);
      try (destruct (nonzero (rc_bt_gatt_write_without_response st)); cbn);
      try (destruct (nonzero (rc_bt_gatt_read st)); cbn);
      eexists; eexists; (split; [reflexivity|]); cbn;
      split; intros; (reflexivity || discriminate || (unfold COLOR_COUNT; lia)).
  - intros st s Hpos. unfold toggle_color, bt_gatt_write_without_response. run.
    split.
    + intros [r Hr].
      destruct (nth_error color_array (Z.to_nat (current_color_index s)))
        as [entry|] eqn:Hnth; [|discriminate].
      assert (Hin : (Z.to_nat (current_color_index s) <
                     List.length color_array)%nat)
        by (apply nth_error_Some; congruence).
      cbn in Hin. unfold COLOR_COUNT. lia.
    + intros Hlt. unfold COLOR_COUNT in Hlt.
      assert (current_color_index s = 0 \/ current_color_index s = 1 \/
              current_color_index s = 2 \/ current_color_index s = 3)
        as [E|[E|[E|E]]] by lia;
        rewrite E;
        destruct (nonzero (rc_bt_gatt_write_without_response st));
        eexists; reflexivity.
Qed.

(** ** More on the control loop *)

(** X14.  A pass in which the peer connects, the discovery request is
    accepted and [sem_discovered] arrives within the 10 s wait makes no
    disconnect request: [main] logs, then waits on [sem_disconnected]
    without timeout.  When that semaphore is given the pass ends, with
    the semaphore taken, and the loop goes round; if it is never given
    [main] stays in that wait. *)
Theorem main_cycle_operates_until_disconnect c s :
  sem_count (while_scanning c s) sem_connected = true ->
  rc_bt_gatt_discover (host c) = 0 ->
  sem_count (while_discovering c (at_discovery c s)) sem_discovered = true ->
  main_cycle c s =
    Some (if sem_count (while_operating c (at_operating c s)) sem_disconnected
          then Next else Blocked,
          if sem_count (while_operating c (at_operating c s)) sem_disconnected
          then set_sem sem_disconnected false (while_operating c (at_operating c s))
          else while_operating c (at_operating c s),
          [call_bt_le_scan_start;
           call_printk
             (if nonzero (rc_bt_le_scan_start (host c))
              then "Scanning failed to start (err %d)\n"
              else "Scanning successfully started\n ==> Will only be scanning devices with a NON-EMPTY device name <==\n");
           call_k_sem_take sem_connected K_FOREVER;
           call_bt_gatt_discover (default_conn (while_scanning c s))
             {| uuid := Some addr_discover_uuid; func := Some cb_discover_func;
                start_handle := BT_ATT_FIRST_ATTRIBUTE_HANDLE;
                end_handle := BT_ATT_LAST_ATTRIBUTE_HANDLE;
                dtype := BT_GATT_DISCOVER_CHARACTERISTIC |}
             BT_UUID_COLOR_SETTING;
           call_printk "Discovery started\n";
           call_k_sem_take sem_discovered (K_SECONDS 10);
           call_printk "Discovered the device's characteristics.\n";
           call_printk "Wait here for user button presses as long as we're still connected...\n";
           call_k_sem_take sem_disconnected K_FOREVER]).
Proof.
  unfold at_operating, at_discovery.
  unfold main_cycle, main_recover, wait, k_sem_take, start_scan,
    bt_le_scan_start, bt_gatt_discover, bt_conn_disconnect.
  run. intros Hconnected Hrc Hdiscovered.
  destruct (nonzero (rc_bt_le_scan_start (host c))); cbn;
    rewrite Hconnected; cbn;
    rewrite (proj2 (nonzero_false _) Hrc); cbn;
    rewrite Hdiscovered; cbn;
    match goal with
    | |- context [if ?b then _ else _] => destruct b
    end; reflexivity.
Qed.

Lemma main_cycle_operates_until_disconnect_witness :
  exists s',
    main_cycle found_then_gone app_init =
      Some (Next, s',
            [call_bt_le_scan_start;
             call_printk "Scanning successfully started\n ==> Will only be scanning devices with a NON-EMPTY device name <==\n";
             call_k_sem_take sem_connected K_FOREVER;
             call_bt_gatt_discover (Some 1%nat)
               {| uuid := Some addr_discover_uuid; func := Some cb_discover_func;
                  start_handle := BT_ATT_FIRST_ATTRIBUTE_HANDLE;
                  end_handle := BT_ATT_LAST_ATTRIBUTE_HANDLE;
                  dtype := BT_GATT_DISCOVER_CHARACTERISTIC |}
               BT_UUID_COLOR_SETTING;
             call_printk "Discovery started\n";
             call_k_sem_take sem_discovered (K_SECONDS 10);
             call_printk "Discovered the device's characteristics.\n";
             call_printk "Wait here for user button presses as long as we're still connected...\n";
             call_k_sem_take sem_disconnected K_FOREVER]) /\
    default_conn s' = None /\
    color_attr_handle s' = 0x0011.
Proof.
  eexists. split.
  - rewrite (main_cycle_operates_until_disconnect found_then_gone app_init);
      reflexivity.
  - split; reflexivity.
Defined.

(** X15.  The host requests of one pass of the loop, whatever happens
    in it: first a scan start; if [sem_connected] is never given nothing
    more; otherwise one characteristic discovery for the color UUID over
    handles 1 to 0xFFFF on the connection then held, whatever the
    discovery block held before; and after that, only when discovery
    failed, one disconnect request with reason "remote user terminated".
    [main] itself never stops the scan, connects, writes, reads or
    subscribes. *)
Theorem main_cycle_requests c s :
  exists f s' out tail,
    main_cycle c s = Some (f, s', out) /\
    requests out = call_bt_le_scan_start :: tail /\
    (sem_count (while_scanning c s) sem_connected = false ->
     tail = [] /\ f = Blocked) /\
    (sem_count (while_scanning c s) sem_connected = true ->
     exists last,
       tail =
         call_bt_gatt_discover (default_conn (while_scanning c s))
           {| uuid := Some addr_discover_uuid; func := Some cb_discover_func;
              start_handle := BT_ATT_FIRST_ATTRIBUTE_HANDLE;
              end_handle := BT_ATT_LAST_ATTRIBUTE_HANDLE;
              dtype := BT_GATT_DISCOVER_CHARACTERISTIC |}
           BT_UUID_COLOR_SETTING :: last /\
       (last = [] /\ ~ discovery_fails c s \/
        exists conn,
          last = [call_bt_conn_disconnect conn BT_HCI_ERR_REMOTE_USER_TERM_CONN] /\
          discovery_fails c s)).
Proof.
  unfold discovery_fails, at_discovery.
  unfold main_cycle, main_recover, wait, k_sem_take, start_scan,
    bt_le_scan_start, bt_gatt_discover, bt_conn_disconnect.
  run.
  destruct (nonzero (rc_bt_le_scan_start (host c))); cbn;
    (destruct (sem_count (while_scanning c s) sem_connected); cbn;
     [ destruct (nonzero (rc_bt_gatt_discover (host c))) eqn:Hrc; cbn;
       rewrite ?nonzero_true, ?nonzero_false in Hrc;
       split_ifs;
       do 4 eexists; (split; [reflexivity|]); cbn;
       (split; [reflexivity|]); (split; [discriminate|]); intros _;
       eexists; (split; [reflexivity|]);
       first [ right; eexists; split; [reflexivity|]; tauto
             | left; split; [reflexivity|]; intros [?|?]; congruence ]
     | do 4 eexists; (split; [reflexivity|]); cbn;
       (split; [reflexivity|]); split; [auto | discriminate] ]).
Qed.




(** ** What no sequence of callbacks does *)

Lemma u16_range x : 0 <= u16 x <= 0xFFFF.
Proof.
  unfold u16, wrap. pose proof (Z.mod_pos_bound x (2 ^ 16)). lia.
Qed.

Ltac app_ok_tac :=
  match goal with
  | Hok : app_ok _ |- _ =>
      destruct Hok as (Hidx & Hw & Hr & Hc & Hb & Hv)
  end;
  split;
  [ unfold app_ok; cbn; unfold COLOR_COUNT in *;
    repeat split; try assumption; try apply u16_range; try lia
  | intros sem Hin; cbn in Hin;
    repeat match goal with
           | H : _ \/ _ |- _ => destruct H
           | H : False |- _ => destruct H
           | H : call_k_sem_give _ = call_k_sem_give _ |- _ =>
               inversion H; clear H; subst
           | H : _ = call_k_sem_give _ |- _ => discriminate H
           end; auto ].

Lemma dispatch_keeps_app_ok st e s s' out :
  app_ok s ->
  dispatch st e s = Some (tt, s', out) ->
  app_ok s' /\
  forall sem,
    In (call_k_sem_give sem) out ->
    sem = sem_connected \/ sem = sem_discovered \/ sem = sem_disconnected.
Proof.
  intros Hok.
  destruct e as [addr rssi kind ad | conn err | conn reason | conn
                | conn attr | conn payload len | conn err payload len
                | button_state has_changed]; cbn [dispatch].
  - unfold device_found.
    remember (bt_data_parse ad data_cb zero_adv_data) as parsed.
    remember (strncmp PERIPHERAL_NAME (name parsed) (strlen PERIPHERAL_NAME)) as cmp.
    unfold bt_le_scan_stop, bt_conn_le_create, start_scan, bt_le_scan_start. run.
    split_ifs; intros H; inversion H; subst; app_ok_tac.
  - unfold connected, start_scan, bt_le_scan_start, bt_conn_unref. run.
    split_ifs; intros H; inversion H; subst; app_ok_tac.
  - unfold disconnected, bt_conn_unref. run.
    split_ifs; intros H; inversion H; subst; app_ok_tac.
  - unfold remote_info_available_cb. run.
    intros H; inversion H; subst; app_ok_tac.
  - destruct attr as [a|].
    + unfold discover_func, bt_gatt_discover, bt_gatt_subscribe. run.
      destruct (uuid (discover_params s)); cbn; [|discriminate].
      split_ifs; intros H; inversion H; subst; app_ok_tac.
    + cbn. intros H; inversion H; subst; app_ok_tac.
  - destruct payload as [[|b rest]|]; cbn; try discriminate;
      intros H; inversion H; subst; app_ok_tac.
  - destruct payload as [[|b rest]|]; cbn; try discriminate;
      intros H; inversion H; subst; app_ok_tac.
  - unfold button_state_changed.
    unfold toggle_color, read_battery_level, bt_gatt_write_without_response,
      bt_gatt_read, bt_conn_get_info, bt_conn_le_param_update, bt_conn_disconnect.
    destruct (pressed BUTTON_COLOR button_state has_changed);
      destruct (pressed BUTTON_BATTERY_LEVEL button_state has_changed);
      destruct (pressed BUTTON_CONN_PARAMS button_state has_changed);
      destruct (pressed BUTTON_DISCONNECT button_state has_changed);
      run; rewrite ?u32_mod_4;
      try (destruct (mod_4_cases (current_color_index s + 1)) as [E|[E|[E|E]]];
           rewrite E; cbn);
      try (destruct (nonzero (rc_bt_gatt_write_without_response st)); cbn);
      try (destruct (nonzero (rc_bt_gatt_read st)); cbn);
      intros H; inversion H; subst; app_ok_tac.
Qed.

(** X17.  Through any sequence of callbacks that runs to its end, from
    a state in which they hold: [current_color_index] stays below
    [COLOR_COUNT], the three stored value handles stay 16-bit values,
    and [sem_written] and [sem_read_operation] are never given - the
    only semaphores any callback gives are [sem_connected],
    [sem_discovered] and [sem_disconnected]. *)
Theorem callbacks_keep_app_ok events :
  forall s s' out,
    app_ok s ->
    deliver events s = Some (tt, s', out) ->
    app_ok s' /\
    forall sem,
      In (call_k_sem_give sem) out ->
      sem = sem_connected \/ sem = sem_discovered \/ sem = sem_disconnected.
Proof.
  induction events as [|[st e] rest IH]; intros s s' out Hok; cbn [deliver].
  - unfold ret. intros H. inversion H; subst. split; [exact Hok|].
    intros sem [].
  - unfold bind.
    destruct (dispatch st e s) as [[[[] s1] o1]|] eqn:Hd; [|discriminate].
    destruct (deliver rest s1) as [[[[] s2] o2]|] eqn:Hr; [|discriminate].
    intros H. inversion H; subst.
    destruct (dispatch_keeps_app_ok _ _ _ _ _ Hok Hd) as [Hok1 Hg1].
    destruct (IH _ _ _ Hok1 Hr) as [Hok2 Hg2].
    split; [exact Hok2|].
    intros sem Hin. apply in_app_or in Hin. destruct Hin; auto.
Qed.

Lemma callbacks_keep_app_ok_witness :
  exists s' out,
    deliver one_connection discovery_ready = Some (tt, s', out) /\
    app_ok s'.
Proof.
  destruct (deliver one_connection discovery_ready) as [[[[] s'] out]|] eqn:Hrun.
  - exists s', out. split; [reflexivity|].
    refine (proj1 (callbacks_keep_app_ok one_connection _ _ _ _ Hrun)).
    unfold app_ok, COLOR_COUNT. cbn. repeat split; lia.
  - vm_compute in Hrun. discriminate Hrun.
Defined.

(** X18.  A disconnect of the active connection that arrives while
    [main] is still waiting for [sem_connected] (the link is lost
    before the remote info is in) gives [sem_disconnected], which
    nobody is waiting for: unless a later callback gives
    [sem_connected], the pass stays blocked in its first wait, having
    asked the host for nothing but the scan start at its beginning, and
    the loop does not go round. *)
Theorem disconnect_before_remote_info_strands_main c s s1 conn reason :
  while_scanning c s = after (disconnected conn reason) s1 ->
  default_conn s1 = Some conn ->
  sem_count s1 sem_connected = false ->
  exists s' out,
    main_cycle c s = Some (Blocked, s', out) /\
    out =
      [call_bt_le_scan_start;
       call_printk
         (if nonzero (rc_bt_le_scan_start (host c))
          then "Scanning failed to start (err %d)\n"
          else "Scanning successfully started\n ==> Will only be scanning devices with a NON-EMPTY device name <==\n");
       call_k_sem_take sem_connected K_FOREVER] /\
    default_conn s' = None /\
    sem_count s' sem_disconnected = true /\
    sem_count s' sem_connected = false /\
    forall rest, main_loop (c :: rest) s = Some (Blocked, s', out).
Proof.
  intros Hwhile Hconn Hsem.
  assert (Hafter : while_scanning c s =
                   set_sem sem_disconnected true (set_default_conn None s1)).
  { rewrite Hwhile. unfold after.
    now rewrite (disconnected_active conn reason _ Hconn). }
  assert (Hrun : main_cycle c s =
    Some (Blocked, set_sem sem_disconnected true (set_default_conn None s1),
          [call_bt_le_scan_start;
           call_printk
             (if nonzero (rc_bt_le_scan_start (host c))
              then "Scanning failed to start (err %d)\n"
              else "Scanning successfully started\n ==> Will only be scanning devices with a NON-EMPTY device name <==\n");
           call_k_sem_take sem_connected K_FOREVER])).
  { unfold main_cycle, wait, k_sem_take, start_scan, bt_le_scan_start. run.
    destruct (nonzero (rc_bt_le_scan_start (host c))); cbn;
      rewrite Hafter; cbn; rewrite Hsem; reflexivity. }
  eexists. eexists. split; [exact Hrun|]. split; [reflexivity|].
  split; [reflexivity|]. split; [reflexivity|]. split; [exact Hsem|].
  intros rest. cbn [main_loop]. unfold bind. rewrite Hrun. reflexivity.
Qed.

Lemma disconnect_before_remote_info_strands_main_witness :
  exists s' out,
    main_cycle link_lost_before_discovery app_init = Some (Blocked, s', out) /\
    default_conn s' = None /\
    main_loop [link_lost_before_discovery; found_then_gone] app_init =
      Some (Blocked, s', out).
Proof.
  destruct (disconnect_before_remote_info_strands_main
              link_lost_before_discovery app_init
              (after (deliver
                 [(host_ok, on_device_found 7 (-40) BT_GAP_ADV_TYPE_ADV_IND
                              bulb_advertisement);
                  (host_ok, on_connected 1%nat 0)]) app_init)
              1%nat 0x3E)
    as (s' & out & Hrun & _ & Hconn & _ & _ & Hloop);
    try reflexivity.
  exists s', out. split; [exact Hrun|]. split; [exact Hconn|].
  apply Hloop.
Defined.
